(** * UpDrive_tools: the fisheye undistorter (python/undistorter.py)

    A shallow embedding of [camera_matrix], [undistort] and [main] of
    python/undistorter.py, and the properties of the calibration
    extraction, the rectification front end and the batch driver.

    The program is Python on top of PyYAML, NumPy and OpenCV.  The embedding
    keeps the three layers apart:
    - the objects PyYAML builds (dicts, lists, scalars) live in a heap of
      Python objects and are reached through references, as in Python;
    - NumPy arrays live in a heap of buffers of their own; an array is a
      shape and a typed row-major buffer, and the element type is inferred
      from the values the way [np.array] infers it;
    - OpenCV, the file system and the YAML parser are interfaces (type
      classes): the program is verified against what it asks of them. *)

From Stdlib Require Import ZArith Floats Bool Ascii String.
From stdpp Require Import base option list gmap strings pretty.

Set Warnings "-register-all".
Local Open Scope Z_scope.

(** ** Python values and the object heap *)

Definition loc := nat.

(** A Python value as PyYAML's [safe_load] produces it: a scalar, or a
    reference to a mutable container.  Mappings are keyed by strings. *)
Inductive val :=
| VNone
| VBool (b : bool)
| VInt (z : Z)
| VFloat (f : float)
| VStr (s : string)
| VRef (l : loc).

Inductive obj :=
| OList (items : list val)
| ODict (entries : gmap string val).

Inductive exn :=
| IndexError | KeyError | TypeError | ValueError | OverflowError
| ZeroDivisionError | AttributeError | OSError | YAMLError | CvError
| SystemExit.

(** ** NumPy arrays *)

(** The buffer of an array, tagged with its element type.  Text and object
    arrays keep the Python values they were built from. *)
Inductive npdata :=
| DBool (xs : list bool)
| DInt64 (xs : list Z)
| DUInt64 (xs : list Z)
| DFloat64 (xs : list float)
| DStr (xs : list val)
| DObject (xs : list val).

Record ndarray := mk_ndarray { shape : list nat; data : npdata }.

(** A decoded image or a remap table: rows, columns, channels, samples. *)
Record raster := mk_raster
  { rows : nat; cols : nat; chans : nat; samples : list Z }.

(** ** Program state and observable events *)

Inductive event :=
| EvPrint (line : string)
| EvPrintValue (v : val)
| EvMkdir (path : string)
| EvImRead (path : string)
| EvImWrite (path : string) (img : raster).

Record state := mk_state
  { objects : list obj;        (* Python containers of the parsed document *)
    arrays : list ndarray;     (* NumPy buffers *)
    images_list : list string; (* the local variable of [main] of that name *)
    trace : list event }.      (* console and file-system events, oldest first *)

Inductive outcome (A : Type) :=
| Ret (a : A)
| Raise (e : exn).
Arguments Ret {A} a.
Arguments Raise {A} e.

Definition M (A : Type) : Type := state -> outcome A * state.

Definition ret {A} (a : A) : M A := fun s => (Ret a, s).
Definition raise {A} (e : exn) : M A := fun s => (Raise e, s).
Definition bind {A B} (m : M A) (k : A -> M B) : M B :=
  fun s => match m s with
           | (Ret a, s') => k a s'
           | (Raise e, s') => (Raise e, s')
           end.

Declare Scope py_scope.
Delimit Scope py_scope with py.
Notation "x <- m ;; k" := (bind m (fun x => k))
  (at level 100, m at next level, right associativity) : py_scope.
Notation "m ;;; k" := (bind m (fun _ => k))
  (at level 100, right associativity) : py_scope.
Local Open Scope py_scope.

(** [try: body except: handler] with a bare [except:], which catches every
    exception, [SystemExit] included. *)
Definition try_except {A} (body : M A) (handler : M A) : M A :=
  fun s => match body s with
           | (Ret a, s') => (Ret a, s')
           | (Raise _, s') => handler s'
           end.

(** [try: body except E: handler]: only the exception [E] is caught. *)
Definition try_except_only {A} (E : exn -> bool) (body : M A) (handler : M A)
  : M A :=
  fun s => match body s with
           | (Ret a, s') => (Ret a, s')
           | (Raise e, s') => if E e then handler s' else (Raise e, s')
           end.

Definition lift {A} (r : exn + A) : M A :=
  match r with inl e => raise e | inr a => ret a end.

Definition emit (e : event) : M unit :=
  fun s => (Ret tt, mk_state (objects s) (arrays s) (images_list s)
                             (trace s ++ [e])).

Definition print (line : string) : M unit := emit (EvPrint line).

Definition get_objects : M (list obj) := fun s => (Ret (objects s), s).

(** ** Subscripting, [obj[key]] *)

(** Python's index normalisation: a negative index counts from the end. *)
Definition py_index {A} (xs : list A) (i : Z) : option A :=
  if 0 <=? i then xs !! Z.to_nat i
  else if - Z.of_nat (length xs) <=? i then xs !! Z.to_nat (Z.of_nat (length xs) + i)
  else None.

Fixpoint chars (s : string) : list string :=
  match s with
  | EmptyString => []
  | String c r => String c EmptyString :: chars r
  end.

(** [container[key]] for a string key: only a dict can answer. *)
Definition getitem_str (h : list obj) (container : val) (key : string)
  : exn + val :=
  match container with
  | VRef l =>
      match h !! l with
      | Some (ODict d) =>
          match d !! key with Some v => inr v | None => inl KeyError end
      | _ => inl TypeError
      end
  | _ => inl TypeError
  end.

(** [container[i]] for an integer: a list or a string answers by position;
    a dict has no integer key. *)
Definition getitem_int (h : list obj) (container : val) (i : Z) : exn + val :=
  match container with
  | VRef l =>
      match h !! l with
      | Some (OList xs) =>
          match py_index xs i with Some v => inr v | None => inl IndexError end
      | Some (ODict _) => inl KeyError
      | None => inl TypeError
      end
  | VStr s =>
      match py_index (chars s) i with
      | Some c => inr (VStr c)
      | None => inl IndexError
      end
  | _ => inl TypeError
  end.

Definition subscript_str (container : val) (key : string) : M val :=
  h <- get_objects ;; lift (getitem_str h container key).

Definition subscript_int (container : val) (i : Z) : M val :=
  h <- get_objects ;; lift (getitem_int h container i).

(** Chained subscripts, [e[k1][k2]...], read left to right. *)
Notation "m .[ k ]" := (bind m (fun c => subscript_str c k))
  (at level 1, left associativity, format "m .[ k ]") : py_scope.
Notation "m .@[ i ]" := (bind m (fun c => subscript_int c i))
  (at level 1, left associativity, format "m .@[ i ]") : py_scope.

(** ** NumPy: building an array from nested Python sequences *)

(** What [np.array] sees when it walks an argument: a scalar, or a sequence
    (with the reference of the list object, when it has one) of further
    arguments.  Strings and dicts are scalars to NumPy. *)
Inductive nested :=
| Leaf (v : val)
| Seq (self : option loc) (items : list nested).

(** NumPy discovers at most 32 dimensions; lists nested deeper stay Python
    objects. *)
Definition NPY_MAXDIMS : nat := 32.

Fixpoint read_nested (h : list obj) (fuel : nat) (v : val) : nested :=
  match fuel with
  | O => Leaf v
  | S n =>
      match v with
      | VRef l =>
          match h !! l with
          | Some (OList xs) => Seq (Some l) (map (read_nested h n) xs)
          | _ => Leaf v
          end
      | _ => Leaf v
      end
  end.

Fixpoint common_prefix (a b : list nat) : list nat :=
  match a, b with
  | x :: a', y :: b' => if Nat.eqb x y then x :: common_prefix a' b' else []
  | _, _ => []
  end.

Definition common_prefixes (ss : list (list nat)) : list nat :=
  match ss with
  | [] => []
  | s :: rest => fold_left common_prefix rest s
  end.

(** The shape NumPy discovers: the length of the sequence, then the
    dimensions on which all of its items agree. *)
Fixpoint dims (t : nested) : list nat :=
  match t with
  | Leaf _ => []
  | Seq _ ts => length ts :: common_prefixes (map dims ts)
  end.

(** The items found [d] levels down, in row-major order. *)
Fixpoint elems (d : nat) (t : nested) : list nested :=
  match d with
  | O => [t]
  | S d' =>
      match t with
      | Leaf _ => []
      | Seq _ ts => concat (map (elems d') ts)
      end
  end.

Definition is_seq (t : nested) : bool :=
  match t with Seq _ _ => true | Leaf _ => false end.

Definition as_val (t : nested) : val :=
  match t with
  | Leaf v => v
  | Seq (Some l) _ => VRef l
  | Seq None _ => VNone
  end.

(** Element types, ordered by NumPy's promotion. *)
Inductive kind := KBool | KInt64 | KUInt64 | KFloat64 | KStr | KObject.

Definition int64_min : Z := - 2 ^ 63.
Definition int64_max : Z := 2 ^ 63 - 1.
Definition uint64_max : Z := 2 ^ 64 - 1.

Definition in_int64 (z : Z) : bool := (int64_min <=? z) && (z <=? int64_max).

(** The element type NumPy discovers for one Python scalar: a Python
    integer is an int64 when it fits, a uint64 when only that fits, and a
    Python object beyond; [None] and dicts are Python objects. *)
Definition kind_of (v : val) : kind :=
  match v with
  | VBool _ => KBool
  | VInt z => if in_int64 z then KInt64
              else if (0 <=? z) && (z <=? uint64_max) then KUInt64
              else KObject
  | VFloat _ => KFloat64
  | VStr _ => KStr
  | VNone | VRef _ => KObject
  end.

(** The common element type of two: booleans yield to numbers, int64 and
    uint64 meet in float64, numbers yield to text, and everything to
    object. *)
Definition promote (a b : kind) : kind :=
  match a, b with
  | KObject, _ | _, KObject => KObject
  | KStr, _ | _, KStr => KStr
  | KBool, k | k, KBool => k
  | KInt64, KInt64 => KInt64
  | KUInt64, KUInt64 => KUInt64
  | _, _ => KFloat64
  end.

(** An integer as a binary64 number, rounded to nearest even. *)
Definition Z2float (z : Z) : float :=
  SF2Prim (binary_normalize prec emax z 0 false).

Definition bool2Z (b : bool) : Z := if b then 1 else 0.

Definition to_bool (v : val) : bool :=
  match v with VBool b => b | _ => false end.
Definition to_int (v : val) : Z :=
  match v with VBool b => bool2Z b | VInt z => z | _ => 0 end.
Definition to_float (v : val) : float :=
  match v with
  | VBool b => Z2float (bool2Z b)
  | VInt z => Z2float z
  | VFloat f => f
  | _ => nan
  end.

(** The buffer for values of a common element type; an empty array is
    float64. *)
Definition pack (vs : list val) : npdata :=
  match vs with
  | [] => DFloat64 []
  | v :: rest =>
      match fold_left (fun k x => promote k (kind_of x)) rest (kind_of v) with
      | KBool => DBool (map to_bool vs)
      | KInt64 => DInt64 (map to_int vs)
      | KUInt64 => DUInt64 (map to_int vs)
      | KFloat64 => DFloat64 (map to_float vs)
      | KStr => DStr vs
      | KObject => DObject vs
      end
  end.

(** The two points on which NumPy releases differ.  A ragged nest of
    sequences raises [ValueError] in recent releases and gave an object
    array before; a float64 that is not finite or does not fit, stored into
    an int64 slot, raises in old releases and stores an unspecified integer
    in recent ones. *)
Class NumPy := {
  ragged_raises : bool;
  cast_invalid : float -> option Z
}.

Section numpy.
Context `{NumPy}.

(** [np.array(t)] / [np.asarray(t)] *)
Definition np_array (t : nested) : exn + ndarray :=
  let s := dims t in
  let es := elems (length s) t in
  if existsb is_seq es then
    if ragged_raises then inl ValueError
    else inr (mk_ndarray s (DObject (map as_val es)))
  else inr (mk_ndarray s (pack (map as_val es))).

(** Truncation toward zero of a finite float. *)
Definition trunc (f : float) : option Z :=
  match Prim2SF f with
  | S754_zero _ => Some 0
  | S754_finite sgn m e =>
      let a := if 0 <=? e then Z.pos m * 2 ^ e else Z.pos m / 2 ^ (- e) in
      Some (if sgn then - a else a)
  | S754_infinity _ | S754_nan => None
  end.

(** Storing a float64 into a slot of an int64 array. *)
Definition store_int64 (f : float) : exn + Z :=
  match trunc f with
  | Some z => if in_int64 z then inr z
              else match cast_invalid f with
                   | Some g => inr g | None => inl OverflowError end
  | None => match cast_invalid f with
            | Some g => inr g | None => inl OverflowError end
  end.

Definition store_uint64 (f : float) : exn + Z :=
  match trunc f with
  | Some z => if (0 <=? z) && (z <=? uint64_max) then inr z
              else match cast_invalid f with
                   | Some g => inr g | None => inl OverflowError end
  | None => match cast_invalid f with
            | Some g => inr g | None => inl OverflowError end
  end.

(** *** Reading, dividing and storing one element *)

(** A NumPy scalar: what indexing an array down to one element returns. *)
Inductive npscalar :=
| NBool (b : bool)
| NInt64 (z : Z)
| NUInt64 (z : Z)
| NFloat64 (f : float)
| NStr (v : val)
| NObject (v : val).

Definition item (d : npdata) (n : nat) : option npscalar :=
  match d with
  | DBool xs => NBool <$> xs !! n
  | DInt64 xs => NInt64 <$> xs !! n
  | DUInt64 xs => NUInt64 <$> xs !! n
  | DFloat64 xs => NFloat64 <$> xs !! n
  | DStr xs => NStr <$> xs !! n
  | DObject xs => NObject <$> xs !! n
  end.

(** The flat position of [a[i][j]].  The program indexes only [K_scaled],
    which is always 3x3 ([np_array_rows33_shape] below); on an array of
    another rank the two subscripts do not name one element, and this
    model raises [IndexError] there. *)
Definition offset2 (a : ndarray) (i j : nat) : exn + nat :=
  match shape a with
  | [r; c] => if (i <? r)%nat && (j <? c)%nat then inr (i * c + j)%nat
              else inl IndexError
  | _ => inl IndexError
  end.

(** [x / s] for a Python object [x] and a Python float [s]. *)
Definition py_truediv (x : val) (s : float) : exn + float :=
  match x with
  | VBool b => if is_zero s then inl ZeroDivisionError
               else inr (Z2float (bool2Z b) / s)%float
  | VInt z => if is_infinity (Z2float z) then inl OverflowError
              else if is_zero s then inl ZeroDivisionError
              else inr (Z2float z / s)%float
  | VFloat f => if is_zero s then inl ZeroDivisionError else inr (f / s)%float
  | _ => inl TypeError
  end.

(** [x / s] for a NumPy scalar [x] and a Python float [s]: the numeric
    element types divide in float64 (division by zero gives an infinity or
    a NaN, not an exception); text does not divide. *)
Definition true_divide (x : npscalar) (s : float) : exn + float :=
  match x with
  | NBool b => inr (Z2float (bool2Z b) / s)%float
  | NInt64 z | NUInt64 z => inr (Z2float z / s)%float
  | NFloat64 f => inr (f / s)%float
  | NStr _ => inl TypeError
  | NObject v => py_truediv v s
  end.

(** [buffer[n] = f] for a float [f]: the value is converted to the element
    type of the buffer. *)
Definition store (d : npdata) (n : nat) (f : float) : exn + npdata :=
  match d with
  | DBool xs => inr (DBool (<[n := negb (f =? 0)%float]> xs))
  | DInt64 xs =>
      match store_int64 f with
      | inr z => inr (DInt64 (<[n := z]> xs)) | inl e => inl e end
  | DUInt64 xs =>
      match store_uint64 f with
      | inr z => inr (DUInt64 (<[n := z]> xs)) | inl e => inl e end
  | DFloat64 xs => inr (DFloat64 (<[n := f]> xs))
  | DStr xs => inr (DStr (<[n := VFloat f]> xs))
  | DObject xs => inr (DObject (<[n := VFloat f]> xs))
  end.

(** [a[:, np.newaxis]] *)
Definition newaxis1 (a : ndarray) : exn + ndarray :=
  match shape a with
  | [] => inl IndexError
  | n :: rest => inr (mk_ndarray (n :: 1%nat :: rest) (data a))
  end.

(** *** Arrays in the heap *)

Definition alloc (a : ndarray) : M loc :=
  fun s => (Ret (length (arrays s)),
            mk_state (objects s) (arrays s ++ [a]) (images_list s) (trace s)).

Definition deref (l : loc) : M ndarray :=
  fun s => match arrays s !! l with
           | Some a => (Ret a, s)
           | None => (Raise AttributeError, s)
           end.

Definition write (l : loc) (a : ndarray) : M unit :=
  fun s => (Ret tt,
            mk_state (objects s) (<[l := a]> (arrays s)) (images_list s)
                     (trace s)).

(** [np.array(t)], the new array allocated. *)
Definition np_array_new (t : nested) : M loc :=
  a <- lift (np_array t) ;; alloc a.

(** [a.copy()] *)
Definition copy (l : loc) : M loc := a <- deref l ;; alloc a.

(** [a[i][j] / float(s)] stored back into [a[i][j]], on the array value. *)
Definition divided (a : ndarray) (i j : nat) (s : float) : exn + ndarray :=
  match offset2 a i j with
  | inl e => inl e
  | inr n =>
      match item (data a) n with
      | None => inl IndexError
      | Some x =>
          match true_divide x s with
          | inl e => inl e
          | inr q =>
              match store (data a) n q with
              | inl e => inl e
              | inr d => inr (mk_ndarray (shape a) d)
              end
          end
      end
  end.

(** [a[i][j] = a[i][j] / float(s)]: [a[i]] is a view on the buffer of [a],
    so the assignment writes into [a] itself. *)
Definition divide_entry (l : loc) (i j : nat) (s : float) : M unit :=
  a <- deref l ;;
  a' <- lift (divided a i j s) ;;
  write l a'.

(** ** [camera_matrix] *)

(** The rows of the literal [[[a, 0, b], [0, c, d], [0, 0, 1]]] as
    [np.array] walks them; the four values may themselves be sequences. *)
Definition rows33 (h : list obj) (a b c d : val) : nested :=
  let rd := read_nested h (NPY_MAXDIMS - 2) in
  Seq None [Seq None [rd a; Leaf (VInt 0); rd b];
            Seq None [Leaf (VInt 0); rd c; rd d];
            Seq None [Leaf (VInt 0); Leaf (VInt 0); Leaf (VInt 1)]].

(** [camera_index] is an integer and [output_scale] a float here, as [main]
    passes them, so [int(camera_index)] and [float(output_scale)] are the
    values themselves.  The result is the Python list returned: the
    references of [K, D, xi, K_scaled], or the empty list. *)
Definition camera_matrix (calibration_dict : val) (camera_index : Z)
    (output_scale : float) : M (list loc) :=
  try_except
    (camera_model <-
       (ret calibration_dict).["ncameras"].@[0].["cameras"]
                             .@[camera_index].["camera"] ;;
     i1 <- (ret camera_model).["intrinsics"].["data"].@[1] ;;
     i3 <- (ret camera_model).["intrinsics"].["data"].@[3] ;;
     i2 <- (ret camera_model).["intrinsics"].["data"].@[2] ;;
     i4 <- (ret camera_model).["intrinsics"].["data"].@[4] ;;
     h <- get_objects ;;
     K <- np_array_new (rows33 h i1 i3 i2 i4) ;;
     K_scaled <- copy K ;;
     divide_entry K_scaled 0 0 output_scale ;;;
     divide_entry K_scaled 1 1 output_scale ;;;
     dist <- (ret camera_model).["distortion"].["parameters"].["data"] ;;
     flat <- lift (np_array (read_nested h NPY_MAXDIMS dist)) ;;
     D <- (column <- lift (newaxis1 flat) ;; alloc column) ;;
     i0 <- (ret camera_model).["intrinsics"].["data"].@[0] ;;
     xi <- np_array_new (read_nested h NPY_MAXDIMS i0) ;;
     ret [K; D; xi; K_scaled])
    (print "[Error] Can not extract camera model properly!" ;;;
     ret []).

End numpy.

(** ** OpenCV and [undistort] *)

Inductive cv_constant :=
| CV_16SC2 | RECTIFY_PERSPECTIVE | INTER_LINEAR | BORDER_CONSTANT.

(** The OpenCV entry points the program calls.  [None] from [cv2_imread] is
    Python's [None] (the file could not be decoded); [None] from the other
    three is a raised [cv2.error]. *)
Class OpenCV := {
  cv2_imread : string -> option raster;
  cv2_omnidir_initUndistortRectifyMap :
    ndarray -> ndarray -> ndarray -> ndarray -> ndarray -> nat * nat ->
    cv_constant -> cv_constant -> option (raster * raster);
  cv2_remap :
    raster -> raster -> raster -> cv_constant -> cv_constant -> option raster;
  cv2_imwrite : string -> raster -> option bool
}.

(** [np.eye(3)] *)
Definition np_eye3 : ndarray :=
  mk_ndarray [3; 3]%nat (DFloat64 [1; 0; 0; 0; 1; 0; 0; 0; 1]%float).

(** [os.path.basename]: what follows the last slash. *)
Fixpoint basename_from (acc : string) (path : string) : string :=
  match path with
  | EmptyString => acc
  | String c rest =>
      if Ascii.eqb c "/"%char then basename_from EmptyString rest
      else basename_from (acc +:+ String c EmptyString) rest
  end.
Definition basename (path : string) : string := basename_from EmptyString path.

Definition tab : string := String (Ascii.ascii_of_nat 9) EmptyString.

Definition shape_eqb (a b : list nat) : bool := bool_decide (a = b).

Section opencv.
Context `{OpenCV}.

Definition imread (image_path : string) : M (option raster) :=
  emit (EvImRead image_path) ;;; ret (cv2_imread image_path).

Definition cv_call {A} (r : option A) : M A :=
  match r with Some a => ret a | None => raise CvError end.

(** [camera_model] is the Python list of references that [camera_matrix]
    returns.  The result is the undistorted image or Python's [None]. *)
Definition undistort (image_path : string) (camera_model : list loc)
    (verbose : bool) : M (option raster) :=
  if negb (length camera_model =? 4)%nat then
    print "[Error] Wrong calibration parameters (total size)!" ;;;
    ret None
  else
    K <- lift (from_option inr (inl IndexError) (camera_model !! 0%nat)) ;;
    D <- lift (from_option inr (inl IndexError) (camera_model !! 1%nat)) ;;
    xi <- lift (from_option inr (inl IndexError) (camera_model !! 2%nat)) ;;
    K_scaled <- lift (from_option inr (inl IndexError) (camera_model !! 3%nat)) ;;
    aK <- deref K ;;
    aD <- deref D ;;
    axi <- deref xi ;;
    aKs <- deref K_scaled ;;
    if negb (shape_eqb (shape aK) [3; 3]%nat)
       || negb (shape_eqb (shape aD) [4; 1]%nat)
       || negb (shape_eqb (shape axi) [])
       || negb (shape_eqb (shape aKs) [3; 3]%nat)
    then
      print "[Error] Wrong calibration parameters (shapes)!" ;;;
      ret None
    else
      image <- imread image_path ;;
      match image with
      | None =>
          print "[Error] Can not load image from path!" ;;;
          ret None
      | Some image =>
          maps <- cv_call (cv2_omnidir_initUndistortRectifyMap
                             aK aD axi np_eye3 aKs (cols image, rows image)
                             CV_16SC2 RECTIFY_PERSPECTIVE) ;;
          undistorted_image <-
            cv_call (cv2_remap image (fst maps) (snd maps)
                               INTER_LINEAR BORDER_CONSTANT) ;;
          (if verbose
           then print (tab +:+ " Finish processing image "
                           +:+ basename image_path)
           else ret tt) ;;;
          ret (Some undistorted_image)
      end.

End opencv.

(** ** The batch driver, [main] *)

(** [CAMERA_INDEX_DICT], in the order written. *)
Definition CAMERA_INDEX_DICT : list (string * Z) :=
  [("front", 0); ("left", 1); ("rear", 2); ("right", 3)].

Definition dict_get (d : list (string * Z)) (key : string) : exn + Z :=
  match find (fun kv => String.eqb (fst kv) key) d with
  | Some kv => inr (snd kv)
  | None => inl KeyError
  end.

(** [collections.Counter] of a list of names. *)
Definition Counter (names : list string) : gmap string nat :=
  foldr (fun x m => <[x := S (default 0%nat (m !! x))]> m) ∅ names.

(** [sorted], on strings. *)
Fixpoint insert_sorted (x : string) (l : list string) : list string :=
  match l with
  | [] => [x]
  | y :: rest => if String.leb x y then x :: l else y :: insert_sorted x rest
  end.
Definition sorted (l : list string) : list string := foldr insert_sorted [] l.

Definition endswith (s suffix : string) : bool :=
  let n := String.length s in
  let m := String.length suffix in
  (m <=? n)%nat && String.eqb (substring (n - m) m s) suffix.

(** [float(n)] for a Python integer. *)
Definition float_of_int (z : Z) : exn + float :=
  if is_infinity (Z2float z) then inl OverflowError else inr (Z2float z).

Fixpoint for_each {A} (xs : list A) (body : A -> M unit) : M unit :=
  match xs with
  | [] => ret tt
  | x :: rest => body x ;;; for_each rest body
  end.

(** The command line after [argparse]. *)
Record arguments := mk_arguments
  { inputs_dir : string; outputs_dir : string; yaml_file : string;
    scale : Z; v : bool }.

(** What the program asks of its host: the file system, the YAML parser and
    the text of a float.  [yaml_safe_load] answers with the document, whose
    containers are the objects of the state the program starts in, or with
    the text of the [YAMLError]; [os_mkdir] is told the directories this
    run has made so far and answers whether the new one can be made;
    [os_listdir] answers [None] for an [OSError]. *)
Class Host := {
  os_path_isfile : string -> bool;
  yaml_safe_load : string -> string + val;
  os_walk : string -> list string;
  os_path_realpath : string -> string;
  os_mkdir : list string -> string -> bool;
  os_listdir : string -> option (list string);
  str_float : float -> string
}.

Definition made (t : list event) : list string :=
  omap (fun e => match e with EvMkdir p => Some p | _ => None end) t.

Definition set_images_list (l : list string) : M unit :=
  fun s => (Ret tt, mk_state (objects s) (arrays s) l (trace s)).

Definition get_images_list : M (list string) :=
  fun s => (Ret (images_list s), s).

Definition sys_exit {A} : M A := raise SystemExit.

Definition is_OSError (e : exn) : bool :=
  match e with OSError => true | _ => false end.

Section main.
Context `{NumPy} `{OpenCV} `{Host}.

Definition mkdir (path : string) : M unit :=
  fun s => if os_mkdir (made (trace s)) path
           then emit (EvMkdir path) s
           else (Raise OSError, s).

Definition imwrite (path : string) (img : raster) : M bool :=
  emit (EvImWrite path img) ;;; cv_call (cv2_imwrite path img).

(** One [.png] file of a sub-folder: lines 167-175. *)
Definition process_file (subfolder_directory subfolder_name
    outputs_directory : string) (camera_model : list loc) (verbose : bool)
    (file : string) : M unit :=
  if endswith file ".png" then
    let image_full_path := subfolder_directory +:+ "/" +:+ file in
    l <- get_images_list ;;
    set_images_list (l ++ [image_full_path]) ;;;
    undistorted_image <- undistort image_full_path camera_model verbose ;;
    match undistorted_image with
    | None =>
        print ("[WARN] Pass the image with undistortion process fail: "
                 +:+ file)
    | Some img =>
        result <- imwrite (outputs_directory +:+ "/" +:+ subfolder_name
                             +:+ "/" +:+ file) img ;;
        if result then ret tt
        else print ("[WARN] Fail to save the undistorted image: " +:+ file)
    end
  else ret tt.

(** The body of the loop over the sub-folders: lines 154-177. *)
Definition process_subfolder (calibration_parameters : val)
    (output_scale : float) (outputs_directory : string) (verbose : bool)
    (subfolder_directory : string) : M unit :=
  print ("[MAIN] Undistorting the images inside: " +:+ subfolder_directory
           +:+ " ...") ;;;
  let subfolder_name := basename subfolder_directory in
  camera_index <- lift (dict_get CAMERA_INDEX_DICT subfolder_name) ;;
  camera_model <-
    camera_matrix calibration_parameters camera_index output_scale ;;
  if negb (length camera_model =? 4)%nat then
    print ("[Error] The camera model of index: " +:+ pretty camera_index
             +:+ " not found !") ;;;
    sys_exit
  else
    set_images_list [] ;;;
    try_except
      (files <- lift (from_option inr (inl OSError)
                        (os_listdir subfolder_directory)) ;;
       for_each (sorted files)
         (process_file subfolder_directory subfolder_name outputs_directory
                       camera_model verbose))
      (l <- get_images_list ;;
       match last l with
       | Some current =>
           print ("[WARN] Failure for undistortion process, current image: "
                    +:+ current)
       | None => raise IndexError
       end).

(** Lines 89-150: the command line, the calibration file, the input
    folders and the output folders.  What the loop needs is returned:
    [calibration_parameters], [output_scale], [outputs_directory] and
    [subfolders_list]. *)
Definition prepare (args : arguments)
  : M (val * float * string * list string) :=
  let verbose := v args in
  output_scale <- lift (float_of_int (scale args)) ;;
  print "[MAIN] ===== Start Auto-Undistortion Process =====" ;;;
  (if verbose then
     print "[DEBUG] ===== The command arguments =====" ;;;
     print ("[DEBUG] The inputs_dir: " +:+ inputs_dir args) ;;;
     print ("[DEBUG] The outputs_dir: " +:+ outputs_dir args) ;;;
     print ("[DEBUG] The yaml_file: " +:+ yaml_file args) ;;;
     print ("[DEBUG] The scale: " +:+ str_float output_scale)
   else ret tt) ;;;
  (* Check yaml file exist and validate the format *)
  (if negb (os_path_isfile (yaml_file args)) then
     print "[Error] The yaml_file not found!" ;;; sys_exit
   else ret tt) ;;;
  calibration_parameters <-
    match yaml_safe_load (yaml_file args) with
    | inr document => ret document
    | inl exc =>
        print exc ;;; print "[Error] The yaml_file unvalidated!" ;;; sys_exit
    end ;;
  (if verbose then
     print "[DEBUG] Calibration file context:" ;;;
     emit (EvPrintValue calibration_parameters)
   else ret tt) ;;;
  (* Check the inputs folder and its sub-folders *)
  let expected_subfolders_list := map fst CAMERA_INDEX_DICT in
  let subfolders_list := map os_path_realpath (os_walk (inputs_dir args)) in
  (if (length subfolders_list =? 0)%nat then
     print "[Error] The inputs_dir not exists!" ;;; sys_exit
   else ret tt) ;;;
  (if negb (length subfolders_list =? length expected_subfolders_list + 1)%nat
   then
     print ("[Error] The inputs_dir should has "
              +:+ pretty (length expected_subfolders_list)
              +:+ " sub-folders!") ;;;
     sys_exit
   else ret tt) ;;;
  let subfolders_list := tail subfolders_list in
  (if negb (bool_decide (Counter (map basename subfolders_list)
                         = Counter expected_subfolders_list))
   then
     print "[Error] The input sub-folders do not match the expected name list!" ;;;
     sys_exit
   else ret tt) ;;;
  (* Check and create the output sub-folders *)
  try_except_only is_OSError
    (mkdir (outputs_dir args))
    (if verbose then print "[WARN] The output directory already exists!"
     else ret tt) ;;;
  let outputs_directory := os_path_realpath (outputs_dir args) in
  for_each expected_subfolders_list
    (fun sub_name =>
       try_except_only is_OSError
         (mkdir (outputs_directory +:+ "/" +:+ sub_name))
         (print "[Error] The output sub-folder already exists (for data safe, stop the process)!" ;;;
          sys_exit)) ;;;
  ret (calibration_parameters, output_scale, outputs_directory,
       subfolders_list).

Definition main (args : arguments) : M unit :=
  prepared <- prepare args ;;
  let '(calibration_parameters, output_scale, outputs_directory,
        subfolders_list) := prepared in
  (* Loop for undistortion process *)
  for_each subfolders_list
    (process_subfolder calibration_parameters output_scale outputs_directory
                       (v args)) ;;;
  print ("[MAIN] Finished all tasks, outputs: " +:+ outputs_directory).

End main.

(** ** The calibration document, as the specification describes it *)

Definition is_dict (h : list obj) (v : val) (d : gmap string val) : Prop :=
  exists l, v = VRef l /\ h !! l = Some (ODict d).

Definition is_list (h : list obj) (v : val) (xs : list val) : Prop :=
  exists l, v = VRef l /\ h !! l = Some (OList xs).

(** [doc] is a mapping whose ["ncameras"] is a list, the first entry of
    which is a mapping whose ["cameras"] is the list [cams]. *)
Definition cameras_of (h : list obj) (doc : val) (cams : list val) : Prop :=
  exists d0 v1 systems v2 d2 v3,
    is_dict h doc d0 /\ d0 !! "ncameras" = Some v1 /\
    is_list h v1 systems /\ systems !! 0%nat = Some v2 /\
    is_dict h v2 d2 /\ d2 !! "cameras" = Some v3 /\
    is_list h v3 cams.

(** [entry] is one element of the camera list: its ["camera"] object holds
    the value [intr] at [intrinsics.data] and the value [dist] at
    [distortion.parameters.data]. *)
Definition camera_entry (h : list obj) (entry intr dist : val) : Prop :=
  exists d vc dc vi di vd dd vp dp,
    is_dict h entry d /\ d !! "camera" = Some vc /\
    is_dict h vc dc /\
    dc !! "intrinsics" = Some vi /\ is_dict h vi di /\
    di !! "data" = Some intr /\
    dc !! "distortion" = Some vd /\ is_dict h vd dd /\
    dd !! "parameters" = Some vp /\ is_dict h vp dp /\
    dp !! "data" = Some dist.

(** The camera record that index [idx] selects holds the list [intr] as
    its intrinsics data and the list [dist] as its distortion data. *)
Definition camera_data (h : list obj) (doc : val) (idx : Z)
    (intr dist : list val) : Prop :=
  exists cams entry vi vd,
    cameras_of h doc cams /\ py_index cams idx = Some entry /\
    camera_entry h entry vi vd /\ is_list h vi intr /\ is_list h vd dist.

(** A number of the configuration file: a float, or an integer of the
    64-bit signed range. *)
Definition numeric (v : val) : bool :=
  match v with
  | VInt z => in_int64 z
  | VFloat _ => true
  | _ => false
  end.

Definition is_int (v : val) : bool :=
  match v with VInt _ => true | _ => false end.

(** The buffer NumPy builds from numbers: int64 when all are written as
    integers, float64 as soon as one is a float. *)
Definition numeric_buffer (vs : list val) : npdata :=
  match vs with
  | [] => DFloat64 []
  | _ => if forallb is_int vs then DInt64 (map to_int vs)
         else DFloat64 (map to_float vs)
  end.

(** [K = [[fx, 0, cx], [0, fy, cy], [0, 0, 1]]] *)
Definition K_of (fx fy cx cy : val) : ndarray :=
  mk_ndarray [3; 3]%nat
    (numeric_buffer [fx; VInt 0; cx; VInt 0; fy; cy; VInt 0; VInt 0; VInt 1]).

(** A float whose integer part exists and is in the int64 range. *)
Definition fits_int64 (f : float) : bool :=
  match trunc f with Some z => in_int64 z | None => false end.

(** When the four entries of [K] are all written as integers, [K] is an
    int64 array and the scaled focal lengths must fit its slots. *)
Definition scalable (fx fy cx cy : val) (s : float) : bool :=
  if forallb is_int [fx; fy; cx; cy]
  then fits_int64 (to_float fx / s) && fits_int64 (to_float fy / s)
  else true.

Definition trunc0 (f : float) : Z := default 0 (trunc f).

(** [K_scaled] for numbers [fx fy cx cy]: the quotient in a float64 array,
    its integer part in an int64 array. *)
Definition K_scaled_of (fx fy cx cy : val) (s : float) : ndarray :=
  mk_ndarray [3; 3]%nat
    (if forallb is_int [fx; fy; cx; cy]
     then DInt64 [trunc0 (to_float fx / s); 0; to_int cx;
                  0; trunc0 (to_float fy / s); to_int cy;
                  0; 0; 1]
     else DFloat64 [to_float fx / s; 0; to_float cx;
                    0; to_float fy / s; to_float cy;
                    0; 0; 1]%float).

(** ** [camera_matrix] as a function of the document *)

Definition ebind {A B} (r : exn + A) (k : A -> exn + B) : exn + B :=
  match r with inl e => inl e | inr a => k a end.

Notation "x <~ r ; k" := (ebind r (fun x => k))
  (at level 100, r at next level, right associativity, only parsing).

Definition intrinsic (h : list obj) (camera_model : val) (i : Z) : exn + val :=
  a <~ getitem_str h camera_model "intrinsics" ;
  b <~ getitem_str h a "data" ;
  getitem_int h b i.

(** The four arrays [camera_matrix] computes from the objects [h], or the
    exception its [try] block ends with. *)
Definition extract `{NumPy} (h : list obj) (doc : val) (idx : Z) (s : float)
  : exn + (ndarray * ndarray * ndarray * ndarray) :=
  c1 <~ getitem_str h doc "ncameras" ;
  c2 <~ getitem_int h c1 0 ;
  c3 <~ getitem_str h c2 "cameras" ;
  c4 <~ getitem_int h c3 idx ;
  camera_model <~ getitem_str h c4 "camera" ;
  i1 <~ intrinsic h camera_model 1 ;
  i3 <~ intrinsic h camera_model 3 ;
  i2 <~ intrinsic h camera_model 2 ;
  i4 <~ intrinsic h camera_model 4 ;
  K <~ np_array (rows33 h i1 i3 i2 i4) ;
  K1 <~ divided K 0 0 s ;
  K_scaled <~ divided K1 1 1 s ;
  d1 <~ getitem_str h camera_model "distortion" ;
  d2 <~ getitem_str h d1 "parameters" ;
  dist <~ getitem_str h d2 "data" ;
  flat <~ np_array (read_nested h NPY_MAXDIMS dist) ;
  D <~ newaxis1 flat ;
  i0 <~ intrinsic h camera_model 0 ;
  xi <~ np_array (read_nested h NPY_MAXDIMS i0) ;
  inr (K, D, xi, K_scaled).

(** The arrays a returned list of references stands for. *)
Definition record_values (r : outcome (list loc) * state)
  : option (list (option ndarray)) :=
  match fst r with
  | Ret ls => Some (map (fun l => arrays (snd r) !! l) ls)
  | Raise _ => None
  end.

Definition is_image_event (e : event) : bool :=
  match e with EvImRead _ | EvImWrite _ _ => true | _ => false end.

Definition image_events (t : list event) : list event :=
  filter (fun e => is_image_event e = true) t.

(** ** Documents for the examples *)

(** The objects of one camera entry, laid out from reference [b] on:
    [{camera: {intrinsics: {data: intr}, distortion: {parameters: {data: dist}}}}]. *)
Definition camera_objects (b : loc) (intr dist : list val) : list obj :=
  [ ODict {[ "camera" := VRef (b + 1)%nat ]};
    ODict (<[ "intrinsics" := VRef (b + 2)%nat ]>
             {[ "distortion" := VRef (b + 4)%nat ]});
    ODict {[ "data" := VRef (b + 3)%nat ]};
    OList intr;
    ODict {[ "parameters" := VRef (b + 5)%nat ]};
    ODict {[ "data" := VRef (b + 6)%nat ]};
    OList dist ].

Fixpoint cameras_objects (b : loc) (cams : list (list val * list val))
  : list obj :=
  match cams with
  | [] => []
  | (intr, dist) :: rest =>
      camera_objects b intr dist ++ cameras_objects (b + 7)%nat rest
  end.

(** The heap of a document [{ncameras: [{cameras: [...]}]}] with the given
    cameras, each an intrinsics list and a distortion list; the document
    itself is [VRef 0]. *)
Definition document (cams : list (list val * list val)) : list obj :=
  [ ODict {[ "ncameras" := VRef 1%nat ]};
    OList [VRef 2%nat];
    ODict {[ "cameras" := VRef 3%nat ]};
    OList (map (fun j => VRef (4 + 7 * j)%nat) (seq 0 (length cams))) ]
  ++ cameras_objects 4%nat cams.

Definition initial (h : list obj) : state := mk_state h [] [] [].

(** A computation is quiet when it reads and writes no image. *)
Definition quiet {A} (m : M A) : Prop :=
  forall s, image_events (trace (snd (m s))) = image_events (trace s).

(** ** The two NumPy behaviours *)

(** NumPy as released when the program was written: a ragged nest becomes
    an object array, an integer slot refuses a value it cannot hold. *)
Definition numpy_legacy : NumPy :=
  {| ragged_raises := false; cast_invalid := fun _ => None |}.

(** Recent NumPy: a ragged nest is an error, an integer slot given a value
    it cannot hold stores the smallest integer. *)
Definition numpy_recent : NumPy :=
  {| ragged_raises := true; cast_invalid := fun _ => Some int64_min |}.

(** ** What OpenCV promises *)

Definition is_float64 (a : ndarray) : bool :=
  match data a with DFloat64 _ => true | _ => false end.

(** A calibration record [undistort] and OpenCV accept: the four shapes
    that [undistort] checks, and float64 elements, which OpenCV requires of
    [K], [D] and [xi]. *)
Definition valid_record (K D xi K_scaled : ndarray) : Prop :=
  shape K = [3; 3]%nat /\ shape D = [4; 1]%nat /\ shape xi = [] /\
  shape K_scaled = [3; 3]%nat /\
  is_float64 K = true /\ is_float64 D = true /\ is_float64 xi = true /\
  is_float64 K_scaled = true.

(** The size contract of the two OpenCV routines: for a valid record
    [initUndistortRectifyMap] builds two tables of the size asked for, given
    as (width, height); [remap] with two tables of one size returns an image
    of that size with the channels of its source. *)
Definition opencv_contract `{OpenCV} : Prop :=
  (forall K D xi R P w h,
      valid_record K D xi P ->
      exists m1 m2,
        cv2_omnidir_initUndistortRectifyMap K D xi R P (w, h)
          CV_16SC2 RECTIFY_PERSPECTIVE = Some (m1, m2) /\
        rows m1 = h /\ cols m1 = w /\ rows m2 = h /\ cols m2 = w) /\
  (forall image m1 m2,
      rows m1 = rows m2 -> cols m1 = cols m2 ->
      exists out,
        cv2_remap image m1 m2 INTER_LINEAR BORDER_CONSTANT = Some out /\
        rows out = rows m1 /\ cols out = cols m1 /\
        chans out = chans image).

(** ** Example inputs *)

Definition distortion4 : list val :=
  [VFloat 0.5; VFloat 0.25; VFloat 0.125; VFloat 0.0625].

(** A camera written with floats throughout. *)
Definition camera_float : list val * list val :=
  ([VFloat 1.125; VFloat 800.5; VFloat 800.25; VFloat 640.5; VFloat 480.5],
   distortion4).

(** A camera whose focal lengths and principal point are written as
    integers, [data: [1.125, 805, 805, 640, 480]]. *)
Definition camera_int : list val * list val :=
  ([VFloat 1.125; VInt 805; VInt 805; VInt 640; VInt 480], distortion4).

(** A camera with an integer focal length beyond 2^53. *)
Definition camera_big : list val * list val :=
  ([VFloat 1.125; VInt 9007199254740993; VInt 9007199254740993;
    VInt 640; VInt 480], distortion4).

(** A camera with three distortion coefficients. *)
Definition camera_three : list val * list val :=
  ([VFloat 1.125; VFloat 800.5; VFloat 800.25; VFloat 640.5; VFloat 480.5],
   [VFloat 0.5; VFloat 0.25; VFloat 0.125]).


Definition example_image : raster := mk_raster 2 3 3 [].

(** An OpenCV that decodes every file to [example_image], builds tables of
    the size asked for and resamples to the size of the tables. *)
Definition opencv_example : OpenCV :=
  {| cv2_imread := fun _ => Some example_image;
     cv2_omnidir_initUndistortRectifyMap := fun _ _ _ _ _ size _ _ =>
       Some (mk_raster (snd size) (fst size) 2 [],
             mk_raster (snd size) (fst size) 1 []);
     cv2_remap := fun image m1 _ _ _ =>
       Some (mk_raster (rows m1) (cols m1) (chans image) []);
     cv2_imwrite := fun _ _ => Some true |}.

(** A host with the four input folders, one image in [front], and a
    calibration file that parses to the document at reference 0. *)
Definition host_example : Host :=
  {| os_path_isfile := fun _ => true;
     yaml_safe_load := fun _ => inr (VRef 0%nat);
     os_walk := fun d =>
       [d; d +:+ "/front"; d +:+ "/left"; d +:+ "/rear"; d +:+ "/right"];
     os_path_realpath := fun p => p;
     os_mkdir := fun made p => negb (bool_decide (p ∈ made));
     os_listdir := fun d =>
       if String.eqb d "in/front" then Some ["a.png"] else Some [];
     str_float := fun _ => "5.0" |}.

Definition example_arguments : arguments :=
  mk_arguments "in" "out" "calibration.yaml" 5 false.

(** ** Further example inputs *)

(** A document whose only camera has no ["distortion"] entry. *)
Definition document_without_distortion : list obj :=
  [ ODict {[ "ncameras" := VRef 1%nat ]};
    OList [VRef 2%nat];
    ODict {[ "cameras" := VRef 3%nat ]};
    OList [VRef 4%nat];
    ODict {[ "camera" := VRef 5%nat ]};
    ODict {[ "intrinsics" := VRef 6%nat ]};
    ODict {[ "data" := VRef 7%nat ]};
    OList (fst camera_float) ].

(** A document whose only camera has a number, not a list, as distortion
    data: [distortion: {parameters: {data: 0.5}}]. *)
Definition document_scalar_distortion : list obj :=
  [ ODict {[ "ncameras" := VRef 1%nat ]};
    OList [VRef 2%nat];
    ODict {[ "cameras" := VRef 3%nat ]};
    OList [VRef 4%nat];
    ODict {[ "camera" := VRef 5%nat ]};
    ODict (<[ "intrinsics" := VRef 6%nat ]>
             {[ "distortion" := VRef 8%nat ]});
    ODict {[ "data" := VRef 7%nat ]};
    OList (fst camera_float);
    ODict {[ "parameters" := VRef 9%nat ]};
    ODict {[ "data" := VFloat 0.5 ]} ].


(** An OpenCV that cannot decode any file. *)
Definition opencv_unreadable : OpenCV :=
  {| cv2_imread := fun _ => None;
     cv2_omnidir_initUndistortRectifyMap :=
       @cv2_omnidir_initUndistortRectifyMap opencv_example;
     cv2_remap := @cv2_remap opencv_example;
     cv2_imwrite := fun _ _ => Some true |}.

(** An OpenCV whose [initUndistortRectifyMap] raises [cv2.error]. *)
Definition opencv_rejecting : OpenCV :=
  {| cv2_imread := fun _ => Some example_image;
     cv2_omnidir_initUndistortRectifyMap := fun _ _ _ _ _ _ _ _ => None;
     cv2_remap := @cv2_remap opencv_example;
     cv2_imwrite := fun _ _ => Some true |}.

(** The state [s] after the events [evs]. *)
Definition add_events (s : state) (evs : list event) : state :=
  mk_state (objects s) (arrays s) (images_list s) (trace s ++ evs).

(** The folder names [main] expects, the keys of [CAMERA_INDEX_DICT]. *)
Definition expected_names : list string := ["front"; "left"; "rear"; "right"].

(** ** Image events of a run *)

(** [e] is the read of a [.png] file [f] of [files] in the folder [inp], or
    the write of a file of that name in [out]/[name]. *)
Definition folder_event (inp out name : string) (files : list string)
    (e : event) : Prop :=
  exists f,
    f ∈ files /\ endswith f ".png" = true /\
    (e = EvImRead (inp +:+ "/" +:+ f) \/
     exists img, e = EvImWrite (out +:+ "/" +:+ name +:+ "/" +:+ f) img).

(** [e] is a read in one of the folders [subfolders] or the matching write
    under the output directory [out]. *)
Definition run_event `{Host} (subfolders : list string) (out : string)
    (e : event) : Prop :=
  exists d files,
    d ∈ subfolders /\ os_listdir d = Some files /\
    folder_event d out (basename d) files e.

(** A host as [host_example] whose folders cannot be listed. *)
Definition host_unlistable : Host :=
  {| os_path_isfile := fun _ => true;
     yaml_safe_load := fun _ => inr (VRef 0%nat);
     os_walk := fun d =>
       [d; d +:+ "/front"; d +:+ "/left"; d +:+ "/rear"; d +:+ "/right"];
     os_path_realpath := fun p => p;
     os_mkdir := fun made p => negb (bool_decide (p ∈ made));
     os_listdir := fun _ => None;
     str_float := fun _ => "5.0" |}.

(** A host as [host_example] without the calibration file. *)
Definition host_without_calibration : Host :=
  {| os_path_isfile := fun _ => false;
     yaml_safe_load := fun _ => inl "no such file";
     os_walk := @os_walk host_example;
     os_path_realpath := fun p => p;
     os_mkdir := fun made p => negb (bool_decide (p ∈ made));
     os_listdir := @os_listdir host_example;
     str_float := fun _ => "5.0" |}.

(** A calibration file with the four cameras of the rig. *)
Definition four_cameras : list (list val * list val) :=
  [camera_float; camera_int; camera_float; camera_float].



(** An OpenCV whose [remap] raises [cv2.error]. *)
Definition opencv_remap_error : OpenCV :=
  {| cv2_imread := fun _ => Some example_image;
     cv2_omnidir_initUndistortRectifyMap :=
       @cv2_omnidir_initUndistortRectifyMap opencv_example;
     cv2_remap := fun _ _ _ _ _ => None;
     cv2_imwrite := fun _ _ => Some true |}.

(** A host as [host_example] whose folder [front] holds a text file and
    two images. *)
Definition host_three_files : Host :=
  {| os_path_isfile := fun _ => true;
     yaml_safe_load := fun _ => inr (VRef 0%nat);
     os_walk := @os_walk host_example;
     os_path_realpath := fun p => p;
     os_mkdir := fun made p => negb (bool_decide (p ∈ made));
     os_listdir := fun d =>
       if String.eqb d "in/front"
       then Some ["b.png"; "a.png"; "README.txt"] else Some [];
     str_float := fun _ => "5.0" |}.

(** * Properties *)

(** ** Running the state monad *)

Section monad_facts.
Context {A B C : Type}.

Lemma bind_assoc (m : M A) (f : A -> M B) (g : B -> M C) s :
  bind (bind m f) g s = bind m (fun x => bind (f x) g) s.
Proof. unfold bind. destruct (m s) as [[a|e] s']; reflexivity. Qed.

Lemma bind_ret_l (a : A) (k : A -> M B) s : bind (ret a) k s = k a s.
Proof. reflexivity. Qed.

Lemma bind_lift (r : exn + A) (k : A -> M B) s :
  bind (lift r) k s = match r with inl e => (Raise e, s) | inr a => k a s end.
Proof. destruct r; reflexivity. Qed.

Lemma bind_get_objects (k : list obj -> M B) s :
  bind get_objects k s = k (objects s) s.
Proof. reflexivity. Qed.

Lemma bind_subscript_str c key (k : val -> M B) s :
  bind (subscript_str c key) k s =
  match getitem_str (objects s) c key with
  | inl e => (Raise e, s) | inr x => k x s end.
Proof.
  unfold subscript_str, bind, get_objects.
  destruct (getitem_str (objects s) c key); reflexivity.
Qed.

Lemma bind_subscript_int c i (k : val -> M B) s :
  bind (subscript_int c i) k s =
  match getitem_int (objects s) c i with
  | inl e => (Raise e, s) | inr x => k x s end.
Proof.
  unfold subscript_int, bind, get_objects.
  destruct (getitem_int (objects s) c i); reflexivity.
Qed.

Lemma bind_alloc a (k : loc -> M B) s :
  bind (alloc a) k s =
  k (length (arrays s))
    (mk_state (objects s) (arrays s ++ [a]) (images_list s) (trace s)).
Proof. reflexivity. Qed.

Lemma bind_deref l a (k : ndarray -> M B) s :
  arrays s !! l = Some a -> bind (deref l) k s = k a s.
Proof. intros E. unfold bind, deref. rewrite E. reflexivity. Qed.

Lemma bind_write l a (k : unit -> M B) s :
  bind (write l a) k s =
  k tt (mk_state (objects s) (<[l := a]> (arrays s)) (images_list s) (trace s)).
Proof. reflexivity. Qed.

End monad_facts.

Lemma insert_last {X} (l : list X) (x y : X) :
  <[length l := y]> (l ++ [x]) = l ++ [y].
Proof. induction l; simpl; congruence. Qed.

Lemma lookup_last {X} (l : list X) (x : X) : (l ++ [x]) !! length l = Some x.
Proof. induction l; simpl; auto. Qed.

Lemma bind_deref_last {X} (k : ndarray -> M X) h A a il t :
  bind (deref (length A)) k (mk_state h (A ++ [a]) il t) =
  k a (mk_state h (A ++ [a]) il t).
Proof. apply bind_deref. apply lookup_last. Qed.

Ltac norm := repeat rewrite bind_assoc; cbv beta.

Ltac st := cbn [objects arrays images_list trace ebind].
Ltac fail_now :=
  solve [ exists (@nil ndarray); st; rewrite ?app_nil_r; reflexivity
        | eexists; st; rewrite <- ?app_assoc; reflexivity ].
Ltac look :=
  norm; rewrite ?bind_ret_l; cbv beta;
  first [rewrite bind_subscript_str | rewrite bind_subscript_int]; st;
  match goal with
  | |- context [match ?r with inl _ => _ | inr _ => _ end] =>
      match r with
      | getitem_str _ _ _ => idtac
      | getitem_int _ _ _ => idtac
      end;
      first
        [ match goal with E : r = _ |- _ => rewrite E; st end
        | let c := fresh "c" in
          let E := fresh "E" in
          destruct r as [?|c] eqn:E; st; [fail_now|] ]
  end.
Ltac pure_step :=
  norm; rewrite bind_lift;
  match goal with
  | |- context [match ?r with inl _ => _ | inr _ => _ end] =>
      match r with
      | np_array _ => idtac
      | divided _ _ _ _ => idtac
      | newaxis1 _ => idtac
      end;
      let c := fresh "a" in
      let E := fresh "E" in
      destruct r as [?|c] eqn:E; st; [fail_now|]
  end.
Ltac heap_step :=
  norm;
  first [ rewrite bind_alloc
        | rewrite bind_deref_last
        | rewrite bind_write; st; rewrite insert_last
        | rewrite bind_get_objects
        | rewrite bind_ret_l ];
  st; cbv beta.

(** Exhibits the objects of a concrete document. *)
Ltac solve_doc :=
  repeat first [ eexists | split ]; lazy; reflexivity.

Lemma camera_matrix_extract `{NumPy} s doc idx sc :
  match extract (objects s) doc idx sc with
  | inr (K, D, xi, Ks) =>
      camera_matrix doc idx sc s =
      (Ret [length (arrays s); (length (arrays s) + 2)%nat;
            (length (arrays s) + 3)%nat; (length (arrays s) + 1)%nat],
       mk_state (objects s) (arrays s ++ [K; Ks; D; xi]) (images_list s)
                (trace s))
  | inl _ =>
      exists garbage,
        camera_matrix doc idx sc s =
        (Ret [],
         mk_state (objects s) (arrays s ++ garbage) (images_list s)
           (trace s ++ [EvPrint "[Error] Can not extract camera model properly!"]))
  end.
Proof.
  destruct s as [h A il t]. st.
  unfold camera_matrix, try_except, extract, intrinsic.
  do 17 look.
  heap_step. unfold np_array_new, copy, divide_entry.
  pure_step. do 4 heap_step. pure_step. do 2 heap_step. pure_step.
  heap_step. do 3 look. do 2 pure_step. heap_step.
  do 3 look. pure_step. heap_step. unfold ret.
  rewrite !length_app. simpl length.
  rewrite <- !app_assoc. simpl app.
  replace (length A + 1 + 1)%nat with (length A + 2)%nat by lia.
  replace (length A + 2 + 1)%nat with (length A + 3)%nat by lia.
  reflexivity.
Qed.

(** *** The pure steps on a well-formed document *)
Lemma getitem_str_dict h v d k x :
  is_dict h v d -> d !! k = Some x -> getitem_str h v k = inr x.
Proof. intros (l & -> & Hl) Hk. unfold getitem_str. by rewrite Hl, Hk. Qed.

Lemma getitem_int_list h v xs i x :
  is_list h v xs -> py_index xs i = Some x -> getitem_int h v i = inr x.
Proof. intros (l & -> & Hl) Hk. unfold getitem_int. by rewrite Hl, Hk. Qed.


Lemma numeric_cases v :
  numeric v = true ->
  (exists z, v = VInt z /\ in_int64 z = true) \/ (exists f, v = VFloat f).
Proof. destruct v; cbn [numeric]; try discriminate; eauto. Qed.

Lemma read_nested_numeric h n v : numeric v = true -> read_nested h n v = Leaf v.
Proof. destruct v, n; cbn [numeric read_nested]; try discriminate; reflexivity. Qed.

Lemma kind_of_numeric v :
  numeric v = true -> kind_of v = if is_int v then KInt64 else KFloat64.
Proof.
  destruct v; cbn [numeric kind_of is_int]; try discriminate;
    [intros ->|]; reflexivity.
Qed.

Lemma fold_promote_numeric vs k :
  forallb numeric vs = true -> (k = KInt64 \/ k = KFloat64) ->
  fold_left (fun k x => promote k (kind_of x)) vs k =
  match k with
  | KInt64 => if forallb is_int vs then KInt64 else KFloat64
  | _ => KFloat64
  end.
Proof.
  revert k. induction vs as [|v vs IH]; intros k Hn Hk.
  - destruct Hk as [-> | ->]; reflexivity.
  - simpl in Hn. apply andb_true_iff in Hn as [Hv Hvs].
    cbn [fold_left forallb]. rewrite (kind_of_numeric _ Hv).
    destruct Hk as [-> | ->]; destruct (is_int v); cbn [promote andb];
      rewrite IH by auto; reflexivity.
Qed.

Lemma pack_numeric vs :
  forallb numeric vs = true -> pack vs = numeric_buffer vs.
Proof.
  destruct vs as [|v vs]; [reflexivity|]. intros Hn.
  pose proof Hn as Hn'. simpl in Hn'. apply andb_true_iff in Hn' as [Hv Hvs].
  unfold pack, numeric_buffer.
  rewrite (kind_of_numeric _ Hv), fold_promote_numeric by (auto; destruct (is_int v); auto).
  cbn [forallb]. destruct (is_int v); cbn [andb]; [destruct (forallb is_int vs)|]; reflexivity.
Qed.

Lemma common_prefix_nil_r a : common_prefix a [] = [].
Proof. destruct a; reflexivity. Qed.

Lemma np_array_rows33_shape `{NumPy} h a b c d arr :
  np_array (rows33 h a b c d) = inr arr -> shape arr = [3; 3]%nat.
Proof.
  unfold np_array, rows33.
  set (r := read_nested h (NPY_MAXDIMS - 2)).
  assert (Hd : dims (Seq None [Seq None [r a; Leaf (VInt 0); r b];
                               Seq None [Leaf (VInt 0); r c; r d];
                               Seq None [Leaf (VInt 0); Leaf (VInt 0); Leaf (VInt 1)]])
               = [3; 3]%nat).
  { cbn [dims length map common_prefixes fold_left].
    rewrite !common_prefix_nil_r. reflexivity. }
  rewrite Hd.
  destruct (existsb _ _); [destruct ragged_raises|]; intros [= <-]; reflexivity.
Qed.

Lemma np_array_rows33_numeric `{NumPy} h fx cx fy cy :
  numeric fx = true -> numeric cx = true ->
  numeric fy = true -> numeric cy = true ->
  np_array (rows33 h fx cx fy cy) = inr (K_of fx fy cx cy).
Proof.
  intros H1 H2 H3 H4. unfold rows33.
  rewrite !read_nested_numeric by assumption.
  unfold np_array. cbn -[pack]. unfold K_of.
  rewrite pack_numeric; [reflexivity|].
  cbn [forallb]. rewrite H1, H2, H3, H4. reflexivity.
Qed.

Lemma common_prefixes_leaves (ds : list val) :
  common_prefixes (map dims (map Leaf ds)) = [].
Proof.
  destruct ds as [|d ds]; [reflexivity|]. cbn [map common_prefixes dims].
  induction ds; [reflexivity|]. exact IHds.
Qed.

Lemma elems1_leaves l (ds : list val) :
  elems 1 (Seq l (map Leaf ds)) = map Leaf ds.
Proof.
  cbn [elems]. induction ds; [reflexivity|].
  cbn [map concat app] in *. by rewrite IHds.
Qed.

Lemma existsb_is_seq_leaves (ds : list val) :
  existsb is_seq (map Leaf ds) = false.
Proof. induction ds; [reflexivity|]. exact IHds. Qed.

Lemma map_as_val_leaves (ds : list val) : map as_val (map Leaf ds) = ds.
Proof. induction ds; [reflexivity|]. cbn [map as_val]. by rewrite IHds. Qed.

Lemma read_nested_numeric_list h n l ds :
  h !! l = Some (OList ds) -> forallb numeric ds = true ->
  read_nested h (S n) (VRef l) = Seq (Some l) (map Leaf ds).
Proof.
  intros Hl Hn. cbn [read_nested]. rewrite Hl. f_equal. clear Hl.
  induction ds as [|d ds IH]; [reflexivity|].
  cbn [forallb] in Hn. apply andb_true_iff in Hn as [Hd Hds].
  cbn [map]. rewrite read_nested_numeric, IH by assumption. reflexivity.
Qed.

Lemma np_array_numeric_list `{NumPy} h v ds :
  is_list h v ds -> forallb numeric ds = true ->
  np_array (read_nested h NPY_MAXDIMS v) =
  inr (mk_ndarray [length ds] (numeric_buffer ds)).
Proof.
  intros (l & -> & Hl) Hn. unfold NPY_MAXDIMS.
  rewrite (read_nested_numeric_list _ _ _ _ Hl Hn).
  unfold np_array. cbn [dims]. rewrite common_prefixes_leaves, length_map.
  cbn [length]. rewrite elems1_leaves, existsb_is_seq_leaves, map_as_val_leaves.
  by rewrite pack_numeric.
Qed.

Lemma np_array_numeric_scalar `{NumPy} h x :
  numeric x = true ->
  np_array (read_nested h NPY_MAXDIMS x) =
  inr (mk_ndarray [] (numeric_buffer [x])).
Proof.
  intros Hn. rewrite read_nested_numeric by assumption.
  unfold np_array. cbn -[pack]. rewrite pack_numeric; [reflexivity|].
  cbn [forallb]. by rewrite Hn.
Qed.

Lemma Z2float_0 : Z2float 0 = 0%float.
Proof. reflexivity. Qed.
Lemma Z2float_1 : Z2float 1 = 1%float.
Proof. reflexivity. Qed.

Lemma store_int64_fits `{NumPy} f :
  fits_int64 f = true -> store_int64 f = inr (trunc0 f).
Proof.
  unfold fits_int64, store_int64, trunc0.
  destruct (trunc f) as [z|]; [|discriminate]. intros ->. reflexivity.
Qed.

Lemma divided_K `{NumPy} fx fy cx cy s :
  numeric fx = true -> numeric cx = true ->
  numeric fy = true -> numeric cy = true ->
  scalable fx fy cx cy s = true ->
  ebind (divided (K_of fx fy cx cy) 0 0 s) (fun K1 => divided K1 1 1 s)
  = inr (K_scaled_of fx fy cx cy s).
Proof.
  intros H1 H2 H3 H4 Hs.
  destruct (numeric_cases _ H1) as [(z1 & -> & R1)|(f1 & ->)];
  destruct (numeric_cases _ H2) as [(z2 & -> & R2)|(f2 & ->)];
  destruct (numeric_cases _ H3) as [(z3 & -> & R3)|(f3 & ->)];
  destruct (numeric_cases _ H4) as [(z4 & -> & R4)|(f4 & ->)];
  unfold K_of, K_scaled_of, numeric_buffer, scalable in *;
  cbn [forallb is_int andb map to_float to_int] in *;
  try (apply andb_true_iff in Hs as [Ha Hb]);
  repeat (unfold divided, offset2;
          cbn [shape data Nat.ltb Nat.leb andb item lookup list_lookup fmap
               option_fmap option_map Nat.mul Nat.add true_divide store ebind
               insert list_insert];
          rewrite ?(store_int64_fits _ Ha), ?(store_int64_fits _ Hb));
  rewrite ?Z2float_0, ?Z2float_1; reflexivity.
Qed.

Lemma extract_navigate `{NumPy} h doc idx s cams entry vi vd :
  cameras_of h doc cams -> py_index cams idx = Some entry ->
  camera_entry h entry vi vd ->
  exists cm,
    (forall i, intrinsic h cm i = getitem_int h vi i) /\
    extract h doc idx s =
    (i1 <~ getitem_int h vi 1 ;
     i3 <~ getitem_int h vi 3 ;
     i2 <~ getitem_int h vi 2 ;
     i4 <~ getitem_int h vi 4 ;
     K <~ np_array (rows33 h i1 i3 i2 i4) ;
     K1 <~ divided K 0 0 s ;
     K_scaled <~ divided K1 1 1 s ;
     flat <~ np_array (read_nested h NPY_MAXDIMS vd) ;
     D <~ newaxis1 flat ;
     i0 <~ getitem_int h vi 0 ;
     xi <~ np_array (read_nested h NPY_MAXDIMS i0) ;
     inr (K, D, xi, K_scaled)).
Proof.
  intros (d0 & v1 & systems & v2 & d2 & v3 & A1 & A2 & A3 & A4 & A5 & A6 & A7)
         Hidx
         (d & vc & dc & vi' & di & vd' & dd & vp & dp &
          B1 & B2 & B3 & B4 & B5 & B6 & B7 & B8 & B9 & B10 & B11).
  exists vc.
  assert (Hin : forall i, intrinsic h vc i = getitem_int h vi i).
  { intros i. unfold intrinsic.
    rewrite (getitem_str_dict _ _ _ _ _ B3 B4). cbn [ebind].
    rewrite (getitem_str_dict _ _ _ _ _ B5 B6). reflexivity. }
  split; [exact Hin|].
  unfold extract.
  rewrite (getitem_str_dict _ _ _ _ _ A1 A2). cbn [ebind].
  rewrite (getitem_int_list _ _ _ 0 _ A3 A4). cbn [ebind].
  rewrite (getitem_str_dict _ _ _ _ _ A5 A6). cbn [ebind].
  rewrite (getitem_int_list _ _ _ _ _ A7 Hidx). cbn [ebind].
  rewrite (getitem_str_dict _ _ _ _ _ B1 B2). cbn [ebind].
  rewrite !Hin.
  rewrite (getitem_str_dict _ _ _ _ _ B3 B7). cbn [ebind].
  rewrite (getitem_str_dict _ _ _ _ _ B8 B9). cbn [ebind].
  rewrite (getitem_str_dict _ _ _ _ _ B10 B11). cbn [ebind].
  reflexivity.
Qed.

Lemma extract_well_formed `{NumPy} h doc idx s x0 fx fy cx cy ds :
  camera_data h doc idx [x0; fx; fy; cx; cy] ds ->
  forallb numeric [x0; fx; fy; cx; cy] = true ->
  forallb numeric ds = true ->
  scalable fx fy cx cy s = true ->
  extract h doc idx s =
  inr (K_of fx fy cx cy,
       mk_ndarray [length ds; 1%nat] (numeric_buffer ds),
       mk_ndarray [] (numeric_buffer [x0]),
       K_scaled_of fx fy cx cy s).
Proof.
  intros (cams & entry & vi & vd & Hc & Hi & He & Hvi & Hvd) Hn Hds Hs.
  destruct (extract_navigate h doc idx s _ _ _ _ Hc Hi He) as (cm & _ & ->).
  cbn [forallb] in Hn.
  repeat (apply andb_true_iff in Hn as [? Hn]).
  rewrite (getitem_int_list _ _ _ 1 fx Hvi eq_refl). cbn [ebind].
  rewrite (getitem_int_list _ _ _ 3 cx Hvi eq_refl). cbn [ebind].
  rewrite (getitem_int_list _ _ _ 2 fy Hvi eq_refl). cbn [ebind].
  rewrite (getitem_int_list _ _ _ 4 cy Hvi eq_refl). cbn [ebind].
  rewrite np_array_rows33_numeric by assumption. cbn [ebind].
  pose proof (divided_K fx fy cx cy s) as HK.
  destruct (divided (K_of fx fy cx cy) 0 0 s) as [e|K1];
    cbn [ebind] in HK |- *; [discriminate HK; assumption|].
  rewrite HK by assumption. cbn [ebind].
  rewrite (np_array_numeric_list _ _ _ Hvd Hds). cbn [ebind newaxis1 shape data].
  rewrite (getitem_int_list _ _ _ 0 x0 Hvi eq_refl). cbn [ebind].
  rewrite np_array_numeric_scalar by assumption. reflexivity.
Qed.

(** ** [camera_matrix] on a well-formed record *)

Lemma camera_matrix_well_formed `{NumPy} s doc idx sc x0 fx fy cx cy ds :
  camera_data (objects s) doc idx [x0; fx; fy; cx; cy] ds ->
  forallb numeric [x0; fx; fy; cx; cy] = true ->
  forallb numeric ds = true ->
  scalable fx fy cx cy sc = true ->
  camera_matrix doc idx sc s =
  (Ret [length (arrays s); (length (arrays s) + 2)%nat;
        (length (arrays s) + 3)%nat; (length (arrays s) + 1)%nat],
   mk_state (objects s)
     (arrays s ++ [K_of fx fy cx cy; K_scaled_of fx fy cx cy sc;
                   mk_ndarray [length ds; 1%nat] (numeric_buffer ds);
                   mk_ndarray [] (numeric_buffer [x0])])
     (images_list s) (trace s)).
Proof.
  intros Hd Hn Hds Hs.
  pose proof (camera_matrix_extract s doc idx sc) as R.
  rewrite (extract_well_formed _ _ _ _ _ _ _ _ _ _ Hd Hn Hds Hs) in R.
  exact R.
Qed.

Lemma lookup_new {X} (l : list X) (new : list X) (n : nat) :
  (l ++ new) !! (length l + n)%nat = new !! n.
Proof. rewrite lookup_app_r by lia. f_equal. lia. Qed.

Lemma lookup_new0 {X} (l : list X) (new : list X) :
  (l ++ new) !! length l = new !! 0%nat.
Proof. rewrite <- (lookup_new l new 0). f_equal. lia. Qed.







(** *** The index *)







(** C1, at a failing input.  With the intrinsics
    [data: [1.125, 805, 805, 640, 480]] the four entries of [K] are written
    as integers, so [K] and its copy are int64 arrays; for [output_scale]
    10 the quotient 805 / 10.0 is 80.5, and the assignment into the int64
    slot keeps 80.  [K_scaled[0][0]] and [K_scaled[1][1]] are 80, not
    [K[0][0] / 10]. *)
Theorem camera_matrix_integer_focal_truncated `{NumPy} :
  exists s',
    camera_matrix (VRef 0%nat) 0 10%float (initial (document [camera_int]))
      = (Ret [0; 2; 3; 1]%nat, s') /\
    arrays s' !! 0%nat =
      Some (mk_ndarray [3; 3]%nat (DInt64 [805; 0; 640; 0; 805; 480; 0; 0; 1])) /\
    arrays s' !! 1%nat =
      Some (mk_ndarray [3; 3]%nat (DInt64 [80; 0; 640; 0; 80; 480; 0; 0; 1])) /\
    (Z2float 805 / 10 = 80.5)%float.
Proof.
  eexists. split; [vm_compute; reflexivity|]. repeat split.
Qed.

(** C5, at a failing input.  With [output_scale] 1 and an integer focal
    length of 2^53 + 1, the entry goes through float64 on its way back into
    the int64 array and comes back as 2^53: [K_scaled] differs from [K]. *)
Theorem camera_matrix_scale_one_changes_big_integer `{NumPy} :
  exists s',
    camera_matrix (VRef 0%nat) 0 1%float (initial (document [camera_big]))
      = (Ret [0; 2; 3; 1]%nat, s') /\
    arrays s' !! 0%nat =
      Some (mk_ndarray [3; 3]%nat
              (DInt64 [9007199254740993; 0; 640;
                       0; 9007199254740993; 480; 0; 0; 1])) /\
    arrays s' !! 1%nat =
      Some (mk_ndarray [3; 3]%nat
              (DInt64 [9007199254740992; 0; 640;
                       0; 9007199254740992; 480; 0; 0; 1])).
Proof.
  eexists. split; [vm_compute; reflexivity|]. repeat split.
Qed.

Lemma camera_matrix_fails `{NumPy} s doc idx sc e :
  extract (objects s) doc idx sc = inl e ->
  exists garbage,
    camera_matrix doc idx sc s =
    (Ret [],
     mk_state (objects s) (arrays s ++ garbage) (images_list s)
       (trace s ++ [EvPrint "[Error] Can not extract camera model properly!"])).
Proof.
  intros E. pose proof (camera_matrix_extract s doc idx sc) as R.
  rewrite E in R. exact R.
Qed.






(** C8.  [camera_matrix] leaves every Python object of the document as it
    was, keeps the arrays that existed and only adds new ones, and the
    arrays it returns depend only on the objects, the index and the scale.
    Its one other trace is the line it prints when it fails. *)
Theorem camera_matrix_frame `{NumPy} doc idx sc s :
  objects (snd (camera_matrix doc idx sc s)) = objects s /\
  (exists new, arrays (snd (camera_matrix doc idx sc s)) = arrays s ++ new) /\
  images_list (snd (camera_matrix doc idx sc s)) = images_list s /\
  (trace (snd (camera_matrix doc idx sc s)) = trace s \/
   trace (snd (camera_matrix doc idx sc s)) =
     trace s ++ [EvPrint "[Error] Can not extract camera model properly!"]) /\
  (forall s2,
      objects s2 = objects s ->
      record_values (camera_matrix doc idx sc s2) =
      record_values (camera_matrix doc idx sc s)).
Proof.
  assert (V : forall s0,
             record_values (camera_matrix doc idx sc s0) =
             match extract (objects s0) doc idx sc with
             | inr (K, D, xi, Ks) => Some [Some K; Some D; Some xi; Some Ks]
             | inl _ => Some []
             end).
  { intros s0. pose proof (camera_matrix_extract s0 doc idx sc) as R.
    destruct (extract (objects s0) doc idx sc) as [e|[[[K D] xi] Ks]].
    - destruct R as (g & ->). reflexivity.
    - rewrite R. unfold record_values. cbn [fst snd arrays map].
      rewrite lookup_new0, !lookup_new. reflexivity. }
  pose proof (camera_matrix_extract s doc idx sc) as R.
  destruct (extract (objects s) doc idx sc) as [e|[[[K D] xi] Ks]] eqn:E.
  - destruct R as (g & R). rewrite R. cbn [snd objects arrays images_list trace].
    repeat split; eauto.
    intros s2 H2. rewrite V, H2, E. rewrite <- R, V, E. reflexivity.
  - rewrite R. cbn [snd objects arrays images_list trace].
    repeat split; eauto.
    intros s2 H2. rewrite V, H2, E. rewrite <- R, V, E. reflexivity.
Qed.

(** C10.  Given a list that does not have exactly four elements, the empty
    list of a failed [camera_matrix] in particular, [undistort] returns
    [None]; all it does is print one line: no image is read and nothing is
    raised. *)
Theorem undistort_rejects_wrong_length `{OpenCV} s image_path camera_model
    verbose :
  length camera_model <> 4%nat ->
  undistort image_path camera_model verbose s =
  (Ret None,
   mk_state (objects s) (arrays s) (images_list s)
     (trace s ++ [EvPrint "[Error] Wrong calibration parameters (total size)!"])).
Proof.
  intros Hlen. unfold undistort.
  destruct (Nat.eqb_spec (length camera_model) 4) as [E|_]; [contradiction|].
  reflexivity.
Qed.

Lemma undistort_rejects_wrong_length_witness :
  @undistort opencv_example "in/front/a.png" [] false
    (snd (@camera_matrix numpy_recent (VRef 0%nat) 1 5%float
            (initial (document [camera_float])))) =
  (Ret None,
   mk_state (document [camera_float]) [] []
     [EvPrint "[Error] Can not extract camera model properly!";
      EvPrint "[Error] Wrong calibration parameters (total size)!"]).
Proof.
  apply (@undistort_rejects_wrong_length opencv_example
           (snd (@camera_matrix numpy_recent (VRef 0%nat) 1 5%float
                   (initial (document [camera_float]))))
           "in/front/a.png" [] false).
  cbn [length]. discriminate.
Defined.

Lemma shape_eqb_neq a b : a <> b -> shape_eqb a b = false.
Proof. intros N. unfold shape_eqb. by apply bool_decide_eq_false. Qed.

Lemma shape_eqb_eq a : shape_eqb a a = true.
Proof. unfold shape_eqb. by apply bool_decide_eq_true. Qed.

(** C4.  When [D] is not 4x1, or [K] is not 3x3, or [K_scaled] is not 3x3,
    [undistort] returns [None]; all it does is print one line: no image is
    read and none is produced. *)
Theorem undistort_rejects_wrong_shapes `{OpenCV} s image_path verbose
    lK lD lxi lKs K D xi Ks :
  arrays s !! lK = Some K -> arrays s !! lD = Some D ->
  arrays s !! lxi = Some xi -> arrays s !! lKs = Some Ks ->
  shape D <> [4; 1]%nat \/ shape K <> [3; 3]%nat \/ shape Ks <> [3; 3]%nat ->
  undistort image_path [lK; lD; lxi; lKs] verbose s =
  (Ret None,
   mk_state (objects s) (arrays s) (images_list s)
     (trace s ++ [EvPrint "[Error] Wrong calibration parameters (shapes)!"])).
Proof.
  intros HK HD Hxi HKs Hbad. unfold undistort.
  cbn [length Nat.eqb negb lookup list_lookup from_option lift].
  rewrite !bind_ret_l.
  rewrite (bind_deref _ _ _ _ HK), (bind_deref _ _ _ _ HD),
          (bind_deref _ _ _ _ Hxi), (bind_deref _ _ _ _ HKs).
  assert (E : negb (shape_eqb (shape K) [3; 3]%nat)
              || negb (shape_eqb (shape D) [4; 1]%nat)
              || negb (shape_eqb (shape xi) [])
              || negb (shape_eqb (shape Ks) [3; 3]%nat) = true).
  { destruct Hbad as [N|[N|N]]; rewrite (shape_eqb_neq _ _ N); cbn [negb];
      rewrite ?orb_true_r; reflexivity. }
  rewrite E. reflexivity.
Qed.

Lemma undistort_rejects_wrong_shapes_witness :
  let s := snd (@camera_matrix numpy_recent (VRef 0%nat) 0 5%float
                  (initial (document [camera_three]))) in
  @undistort opencv_example "in/front/a.png" [0; 2; 3; 1]%nat false s =
  (Ret None,
   mk_state (objects s) (arrays s) (images_list s)
     (trace s ++ [EvPrint "[Error] Wrong calibration parameters (shapes)!"])).
Proof.
  apply (@undistort_rejects_wrong_shapes opencv_example
           (snd (@camera_matrix numpy_recent (VRef 0%nat) 0 5%float
                   (initial (document [camera_three]))))
           "in/front/a.png" false 0%nat 2%nat 3%nat 1%nat
           (K_of (VFloat 800.5) (VFloat 800.25) (VFloat 640.5) (VFloat 480.5))
           (mk_ndarray [3; 1]%nat (DFloat64 [0.5; 0.25; 0.125]%float))
           (mk_ndarray [] (DFloat64 [1.125]%float))
           (K_scaled_of (VFloat 800.5) (VFloat 800.25) (VFloat 640.5)
                        (VFloat 480.5) 5%float)).
  - vm_compute. reflexivity.
  - vm_compute. reflexivity.
  - vm_compute. reflexivity.
  - vm_compute. reflexivity.
  - left. cbn [shape]. discriminate.
Defined.


Lemma opencv_example_contract : @opencv_contract opencv_example.
Proof.
  split.
  - intros K D xi R P w h _. do 2 eexists. cbn. repeat split.
  - intros image m1 m2 _ _. eexists. cbn. repeat split.
Qed.



(** ** Image events *)

Lemma quiet_ret {A} (a : A) : quiet (ret a).
Proof. intros s. reflexivity. Qed.

Lemma quiet_raise {A} e : quiet (@raise A e).
Proof. intros s. reflexivity. Qed.

Lemma quiet_bind {A B} (m : M A) (k : A -> M B) :
  quiet m -> (forall a, quiet (k a)) -> quiet (bind m k).
Proof.
  intros Hm Hk s. unfold bind. specialize (Hm s).
  destruct (m s) as [[a|e] s1]; cbn [snd] in *; [|exact Hm].
  rewrite Hk. exact Hm.
Qed.

Lemma quiet_lift {A} (r : exn + A) : quiet (lift r).
Proof. destruct r; intros s; reflexivity. Qed.

Lemma quiet_emit e : is_image_event e = false -> quiet (emit e).
Proof.
  intros He s. cbn [emit snd trace]. unfold image_events.
  rewrite filter_app. cbn [filter list_filter].
  destruct (decide (is_image_event e = true)) as [E|_]; [congruence|].
  apply app_nil_r.
Qed.

Lemma quiet_print line : quiet (print line).
Proof. apply quiet_emit. reflexivity. Qed.

Lemma quiet_try_except {A} (b h : M A) :
  quiet b -> quiet h -> quiet (try_except b h).
Proof.
  intros Hb Hh s. unfold try_except. specialize (Hb s).
  destruct (b s) as [[a|e] s1]; cbn [snd] in *; [exact Hb|].
  rewrite Hh. exact Hb.
Qed.

Lemma quiet_try_except_only {A} E (b h : M A) :
  quiet b -> quiet h -> quiet (try_except_only E b h).
Proof.
  intros Hb Hh s. unfold try_except_only. specialize (Hb s).
  destruct (b s) as [[a|e] s1]; cbn [snd] in *; [exact Hb|].
  destruct (E e); [rewrite Hh|]; exact Hb.
Qed.

Lemma quiet_if {A} (c : bool) (m1 m2 : M A) :
  quiet m1 -> quiet m2 -> quiet (if c then m1 else m2).
Proof. destruct c; auto. Qed.

Lemma quiet_for_each {A} (xs : list A) (body : A -> M unit) :
  (forall x, quiet (body x)) -> quiet (for_each xs body).
Proof.
  intros Hb. induction xs as [|x xs IH]; cbn [for_each].
  - apply quiet_ret.
  - apply quiet_bind; auto.
Qed.

Lemma quiet_sys_exit {A} : quiet (@sys_exit A).
Proof. apply quiet_raise. Qed.

Lemma quiet_mkdir `{Host} path : quiet (mkdir path).
Proof.
  intros s. unfold mkdir. destruct (os_mkdir _ _); [|reflexivity].
  apply quiet_emit. reflexivity.
Qed.

Lemma quiet_prepare `{Host} args : quiet (prepare args).
Proof.
  unfold prepare.
  repeat first
    [ apply quiet_bind; [|intros ?]
    | apply quiet_if
    | apply quiet_try_except_only
    | apply quiet_for_each; intros ?
    | apply quiet_print
    | apply quiet_lift
    | apply quiet_ret
    | apply quiet_sys_exit
    | apply quiet_mkdir
    | apply quiet_emit; reflexivity
    | match goal with |- quiet (match ?x with inl _ => _ | inr _ => _ end) =>
        destruct x end ].
Qed.

Lemma image_events_print t line :
  image_events (t ++ [EvPrint line]) = image_events t.
Proof.
  unfold image_events. rewrite filter_app. cbn [filter list_filter].
  destruct (decide (is_image_event (EvPrint line) = true)) as [E|_];
    [discriminate E|]. apply app_nil_r.
Qed.

Lemma camera_matrix_short_list `{NumPy} s doc idx sc r :
  fst (camera_matrix doc idx sc s) = Ret r -> length r <> 4%nat ->
  exists e, extract (objects s) doc idx sc = inl e.
Proof.
  intros Hr Hlen. pose proof (camera_matrix_extract s doc idx sc) as R.
  destruct (extract (objects s) doc idx sc) as [e|[[[K D] xi] Ks]];
    [eauto|].
  rewrite R in Hr. cbn [fst] in Hr. injection Hr as <-.
  cbn [length] in Hlen. contradiction.
Qed.

(** ** Division by one in binary64 *)

Lemma fexp_canonical m e :
  bounded prec emax m e = true ->
  Z.max (Z.pos (digits2_pos m) + e - 53) (-1074) = e /\ e <= 971.
Proof.
  unfold bounded, canonical_mantissa, fexp, SpecFloat.emin, prec, emax.
  intros H. apply andb_true_iff in H as [H1 H2].
  apply Z.eqb_eq in H1. apply Z.leb_le in H2. split; lia.
Qed.

Lemma div_eucl_exact a b q :
  0 < b -> a = b * q -> Z.div_eucl a b = (q, 0).
Proof.
  intros Hb ->.
  pose proof (Z.div_eucl_eq (b * q) b ltac:(lia)) as E.
  pose proof (Z.mod_pos_bound (b * q) b Hb) as B.
  unfold Z.modulo in B.
  destruct (Z.div_eucl (b * q) b) as [q' r]. 
  destruct (Z.div_mod_unique b q q' 0 r) as [-> <-]; [lia|lia|lia|reflexivity].
Qed.

Lemma round_exact sx m e :
  bounded prec emax m e = true ->
  binary_round_aux prec emax sx (Z.pos m) e loc_Exact = S754_finite sx m e.
Proof.
  intros H. destruct (fexp_canonical m e H) as [Hc He].
  unfold binary_round_aux, shr_fexp.
  cbn [Zdigits2 shr_record_of_loc].
  assert (E0 : fexp prec emax (Z.pos (digits2_pos m) + e) - e = 0).
  { unfold fexp, SpecFloat.emin, prec, emax. lia. }
  rewrite E0. cbn [shr shr_m loc_of_shr_record round_nearest_even Zdigits2 shr_record_of_loc].
  rewrite E0. cbn [shr shr_m].
  assert (L : (e <=? emax - prec) = true) by (apply Z.leb_le; unfold emax, prec; lia).
  rewrite L. reflexivity.
Qed.

Lemma round_exact_double sx m e :
  bounded prec emax m e = true ->
  Z.pos (digits2_pos m) = 53 -> -1073 <= e ->
  binary_round_aux prec emax sx (Z.pos m~0) (e - 1) loc_Exact = S754_finite sx m e.
Proof.
  intros H Hd Hlow. destruct (fexp_canonical m e H) as [Hc He].
  unfold binary_round_aux, shr_fexp.
  cbn [Zdigits2 shr_record_of_loc digits2_pos].
  assert (E1 : fexp prec emax (Z.pos (Pos.succ (digits2_pos m)) + (e - 1)) - (e - 1) = 1).
  { unfold fexp, SpecFloat.emin, prec, emax. lia. }
  rewrite E1. cbn [shr SpecFloat.iter_pos shr_1 orb shr_m loc_of_shr_record round_nearest_even Zdigits2 shr_record_of_loc].
  replace (e - 1 + 1) with e by lia.
  assert (E0 : fexp prec emax (Z.pos (digits2_pos m) + e) - e = 0).
  { unfold fexp, SpecFloat.emin, prec, emax. lia. }
  rewrite E0. cbn [shr shr_m].
  assert (L : (e <=? emax - prec) = true) by (apply Z.leb_le; unfold emax, prec; lia).
  rewrite L. reflexivity.
Qed.

Lemma SFdiv_one x :
  valid_binary x = true ->
  SF64div x (S754_finite false 4503599627370496 (-52)) = x.
Proof.
  intros Hv. destruct x as [s|s| |s m e]; try (destruct s; reflexivity); try reflexivity.
  cbn [SpecFloat.valid_binary] in Hv.
  destruct (fexp_canonical m e Hv) as [Hc He].
  unfold SF64div, SFdiv, SFdiv_core_binary.
  change (Zdigits2 (Z.pos 4503599627370496)) with 53.
  cbn [Zdigits2].
  set (d := Z.pos (digits2_pos m)) in *.
  assert (Hdpos : 0 < d) by (unfold d; lia).
  destruct (Z_lt_le_dec e (-1073)) as [Hlow|Hhigh].
  - (* e = -1074 *)
    assert (E' : Z.min (fexp prec emax (d + e - (53 + -52))) (e - -52) = e).
    { unfold fexp, SpecFloat.emin, prec, emax. lia. }
    rewrite E'. replace (e - -52 - e) with 52 by lia.
    rewrite Z.shiftl_mul_pow2 by lia.
    rewrite (div_eucl_exact _ _ (Z.pos m)) by (try reflexivity; lia).
    change (new_location 4503599627370496 0) with loc_Exact.
    rewrite round_exact by assumption. destruct s; reflexivity.
  - assert (Hd : d = 53) by lia.
    assert (E' : Z.min (fexp prec emax (d + e - (53 + -52))) (e - -52) = e - 1).
    { unfold fexp, SpecFloat.emin, prec, emax. lia. }
    rewrite E'. replace (e - -52 - (e - 1)) with 53 by lia.
    rewrite Z.shiftl_mul_pow2 by lia.
    rewrite (div_eucl_exact _ _ (Z.pos m~0)) by (try reflexivity; lia).
    change (new_location 4503599627370496 0) with loc_Exact.
    rewrite round_exact_double by assumption. destruct s; reflexivity.
Qed.

Lemma div_one (x : float) : (x / 1)%float = x.
Proof.
  apply Prim2SF_inj. rewrite div_spec.
  change (Prim2SF 1) with (S754_finite false 4503599627370496 (-52)).
  apply SFdiv_one. apply Prim2SF_valid.
Qed.

(** ** The scaled matrix, by element type *)

(** For a record whose [K] is a float64 array (one of fx, fy, cx, cy is
    written as a float), [K_scaled[0][0]] and [K_scaled[1][1]] are the
    float64 quotients of the entries of [K] by the scale, and the seven other
    entries are those of [K]. *)
Theorem camera_matrix_scales_float64 `{NumPy} s doc idx sc
    xi fx fy cx cy dist :
  camera_data (objects s) doc idx [xi; fx; fy; cx; cy] dist ->
  forallb numeric [xi; fx; fy; cx; cy] = true ->
  forallb numeric dist = true ->
  forallb is_int [fx; fy; cx; cy] = false ->
  exists lK lD lxi lKs s' k ks,
    camera_matrix doc idx sc s = (Ret [lK; lD; lxi; lKs], s') /\
    arrays s' !! lK = Some (mk_ndarray [3; 3]%nat (DFloat64 k)) /\
    arrays s' !! lKs = Some (mk_ndarray [3; 3]%nat (DFloat64 ks)) /\
    length k = 9%nat /\
    forall n x,
      k !! n = Some x ->
      ks !! n = Some (if (n =? 0)%nat || (n =? 4)%nat then (x / sc)%float
                      else x).
Proof.
  intros Hd Hn Hds Hf.
  assert (Hs : scalable fx fy cx cy sc = true)
    by (unfold scalable; rewrite Hf; reflexivity).
  exists (length (arrays s)), (length (arrays s) + 2)%nat,
         (length (arrays s) + 3)%nat, (length (arrays s) + 1)%nat.
  eexists. do 2 eexists. split.
  - apply (camera_matrix_well_formed s doc idx sc _ _ _ _ _ _ Hd Hn Hds Hs).
  - cbn [arrays]. rewrite lookup_new0, !lookup_new. cbn [lookup list_lookup].
    unfold K_of, K_scaled_of, numeric_buffer.
    assert (Hf' : forallb is_int
               [fx; VInt 0; cx; VInt 0; fy; cy; VInt 0; VInt 0; VInt 1]
             = false).
    { cbn [forallb is_int] in *. rewrite !andb_true_r in *.
      destruct (is_int fx), (is_int cx), (is_int fy), (is_int cy);
        try reflexivity; discriminate. }
    rewrite Hf, Hf'. cbn [map to_float]. rewrite Z2float_0, Z2float_1.
    repeat split.
    intros n x Hx.
    do 9 (destruct n as [|n]; [injection Hx as <-; reflexivity|]).
    discriminate.
Qed.

(** For a record whose [K] is an int64 array (fx, fy, cx, cy all written as
    integers), [K_scaled[0][0]] and [K_scaled[1][1]] are the integer parts
    of the quotients, and the seven other entries are those of [K]. *)
Theorem camera_matrix_truncates_int64 `{NumPy} s doc idx sc
    xi fx fy cx cy dist :
  camera_data (objects s) doc idx
    [xi; VInt fx; VInt fy; VInt cx; VInt cy] dist ->
  forallb numeric [xi; VInt fx; VInt fy; VInt cx; VInt cy] = true ->
  forallb numeric dist = true ->
  fits_int64 (Z2float fx / sc) = true ->
  fits_int64 (Z2float fy / sc) = true ->
  exists lK lD lxi lKs s',
    camera_matrix doc idx sc s = (Ret [lK; lD; lxi; lKs], s') /\
    arrays s' !! lK =
      Some (mk_ndarray [3; 3]%nat (DInt64 [fx; 0; cx; 0; fy; cy; 0; 0; 1])) /\
    arrays s' !! lKs =
      Some (mk_ndarray [3; 3]%nat
              (DInt64 [trunc0 (Z2float fx / sc); 0; cx;
                       0; trunc0 (Z2float fy / sc); cy;
                       0; 0; 1])).
Proof.
  intros Hd Hn Hds H1 H2.
  assert (Hs : scalable (VInt fx) (VInt fy) (VInt cx) (VInt cy) sc = true).
  { unfold scalable. cbn [forallb is_int andb to_float]. by rewrite H1, H2. }
  do 5 eexists. split.
  - apply (camera_matrix_well_formed s doc idx sc _ _ _ _ _ _ Hd Hn Hds Hs).
  - cbn [arrays]. rewrite lookup_new0, !lookup_new. repeat split.
Qed.

Lemma K_scaled_of_one fx fy cx cy :
  forallb is_int [fx; fy; cx; cy] = false ->
  K_scaled_of fx fy cx cy 1 = K_of fx fy cx cy.
Proof.
  intros Hf. unfold K_scaled_of, K_of, numeric_buffer.
  assert (Hf' : forallb is_int
             [fx; VInt 0; cx; VInt 0; fy; cy; VInt 0; VInt 0; VInt 1]
           = false).
  { cbn [forallb is_int] in *. rewrite !andb_true_r in *.
    destruct (is_int fx), (is_int cx), (is_int fy), (is_int cy);
      try reflexivity; discriminate. }
  rewrite Hf, Hf'. cbn [map to_float].
  rewrite !div_one, Z2float_0, Z2float_1. reflexivity.
Qed.

(** For a record whose [K] is a float64 array and [output_scale] 1,
    [K_scaled] is equal to [K], entry by entry: binary64 division by one
    returns its argument. *)
Theorem camera_matrix_scale_one_float64 `{NumPy} s doc idx
    xi fx fy cx cy dist :
  camera_data (objects s) doc idx [xi; fx; fy; cx; cy] dist ->
  forallb numeric [xi; fx; fy; cx; cy] = true ->
  forallb numeric dist = true ->
  forallb is_int [fx; fy; cx; cy] = false ->
  exists lK lD lxi lKs s' K,
    camera_matrix doc idx 1%float s = (Ret [lK; lD; lxi; lKs], s') /\
    arrays s' !! lK = Some K /\ arrays s' !! lKs = Some K.
Proof.
  intros Hd Hn Hds Hf.
  assert (Hs : scalable fx fy cx cy 1 = true)
    by (unfold scalable; rewrite Hf; reflexivity).
  do 6 eexists. split.
  - apply (camera_matrix_well_formed s doc idx 1%float
             _ _ _ _ _ _ Hd Hn Hds Hs).
  - cbn [arrays]. rewrite lookup_new0, !lookup_new. cbn [lookup list_lookup].
    rewrite K_scaled_of_one by assumption. split; reflexivity.
Qed.

Lemma camera_float_data :
  camera_data (objects (initial (document [camera_float]))) (VRef 0%nat) 0
    [VFloat 1.125; VFloat 800.5; VFloat 800.25; VFloat 640.5; VFloat 480.5]
    distortion4.
Proof.
  unfold camera_data, cameras_of, camera_entry, is_dict, is_list. solve_doc.
Qed.

Lemma camera_int_data :
  camera_data (objects (initial (document [camera_int]))) (VRef 0%nat) 0
    [VFloat 1.125; VInt 805; VInt 805; VInt 640; VInt 480] distortion4.
Proof.
  unfold camera_data, cameras_of, camera_entry, is_dict, is_list. solve_doc.
Qed.

Lemma camera_matrix_scale_one_float64_witness :
  exists lK lD lxi lKs s' K,
    @camera_matrix numpy_legacy (VRef 0%nat) 0 1%float
      (initial (document [camera_float])) = (Ret [lK; lD; lxi; lKs], s') /\
    arrays s' !! lK = Some K /\ arrays s' !! lKs = Some K.
Proof.
  apply (@camera_matrix_scale_one_float64 numpy_legacy
           (initial (document [camera_float])) (VRef 0%nat) 0
           (VFloat 1.125) (VFloat 800.5) (VFloat 800.25) (VFloat 640.5)
           (VFloat 480.5) distortion4 camera_float_data);
    reflexivity.
Defined.

Lemma camera_matrix_scales_float64_witness :
  exists lK lD lxi lKs s' k ks,
    @camera_matrix numpy_legacy (VRef 0%nat) 0 10%float
      (initial (document [camera_float])) = (Ret [lK; lD; lxi; lKs], s') /\
    arrays s' !! lK = Some (mk_ndarray [3; 3]%nat (DFloat64 k)) /\
    arrays s' !! lKs = Some (mk_ndarray [3; 3]%nat (DFloat64 ks)) /\
    length k = 9%nat /\
    forall n x,
      k !! n = Some x ->
      ks !! n = Some (if (n =? 0)%nat || (n =? 4)%nat then (x / 10)%float
                      else x).
Proof.
  apply (@camera_matrix_scales_float64 numpy_legacy
           (initial (document [camera_float])) (VRef 0%nat) 0 10%float
           (VFloat 1.125) (VFloat 800.5) (VFloat 800.25) (VFloat 640.5)
           (VFloat 480.5) distortion4 camera_float_data);
    reflexivity.
Defined.

Lemma camera_matrix_truncates_int64_witness :
  exists lK lD lxi lKs s',
    @camera_matrix numpy_legacy (VRef 0%nat) 0 10%float
      (initial (document [camera_int])) = (Ret [lK; lD; lxi; lKs], s') /\
    arrays s' !! lK =
      Some (mk_ndarray [3; 3]%nat
              (DInt64 [805; 0; 640; 0; 805; 480; 0; 0; 1])) /\
    arrays s' !! lKs =
      Some (mk_ndarray [3; 3]%nat
              (DInt64 [trunc0 (Z2float 805 / 10); 0; 640;
                       0; trunc0 (Z2float 805 / 10); 480;
                       0; 0; 1])).
Proof.
  apply (@camera_matrix_truncates_int64 numpy_legacy
           (initial (document [camera_int])) (VRef 0%nat) 0 10%float
           (VFloat 1.125) 805 805 640 480 distortion4 camera_int_data);
    reflexivity.
Defined.

(** ** [camera_matrix] on any input *)

(** [camera_matrix] never raises: it returns the empty list after printing
    its error line, or four distinct references to arrays that did not
    exist before, and then prints nothing. *)
Theorem camera_matrix_never_raises `{NumPy} doc idx sc s :
  (fst (camera_matrix doc idx sc s) = Ret [] /\
   trace (snd (camera_matrix doc idx sc s)) =
     trace s ++ [EvPrint "[Error] Can not extract camera model properly!"]) \/
  (exists lK lD lxi lKs,
      fst (camera_matrix doc idx sc s) = Ret [lK; lD; lxi; lKs] /\
      trace (snd (camera_matrix doc idx sc s)) = trace s /\
      NoDup [lK; lD; lxi; lKs] /\
      Forall (fun l => (length (arrays s) <= l)%nat /\
                       is_Some (arrays (snd (camera_matrix doc idx sc s)) !! l))
             [lK; lD; lxi; lKs]).
Proof.
  pose proof (camera_matrix_extract s doc idx sc) as R.
  destruct (extract (objects s) doc idx sc) as [e|[[[K D] xi] Ks]].
  - destruct R as (g & ->). left. split; reflexivity.
  - rewrite R. right. do 4 eexists. cbn [fst snd trace arrays].
    split; [reflexivity|]. split; [reflexivity|]. split.
    + repeat constructor; rewrite ?elem_of_cons, ?elem_of_nil; lia.
    + repeat constructor; try lia;
        rewrite ?lookup_new0, ?lookup_new; eexists; reflexivity.
Qed.

Lemma divided_shape `{NumPy} a i j s a' :
  divided a i j s = inr a' -> shape a' = shape a.
Proof.
  unfold divided. destruct (offset2 a i j); [discriminate|].
  destruct (item (data a) n); [|discriminate].
  destruct (true_divide n0 s); [discriminate|].
  destruct (store (data a) n f); [discriminate|].
  intros [= <-]. reflexivity.
Qed.

Lemma newaxis1_shape a D :
  newaxis1 a = inr D ->
  exists n rest, shape a = n :: rest /\ shape D = n :: 1%nat :: rest.
Proof.
  unfold newaxis1. destruct (shape a) as [|n rest]; [discriminate|].
  intros [= <-]. eauto.
Qed.

Ltac ebind_inv H :=
  match type of H with
  | ebind ?r _ = inr _ =>
      let E := fresh "E" in
      destruct r eqn:E; cbn [ebind] in H; [discriminate H|]
  end.

Lemma extract_shapes `{NumPy} h doc idx s K D xi Ks :
  extract h doc idx s = inr (K, D, xi, Ks) ->
  shape K = [3; 3]%nat /\ shape Ks = [3; 3]%nat /\
  exists n rest, shape D = n :: 1%nat :: rest.
Proof.
  unfold extract. intros E.
  do 19 ebind_inv E.
  injection E as <- <- <- <-.
  match goal with
  | HK : @np_array _ (rows33 _ _ _ _ _) = _ |- _ =>
      pose proof (np_array_rows33_shape _ _ _ _ _ _ HK) as HsK
  end.
  repeat match goal with
  | Hd : @divided _ _ _ _ _ = _ |- _ =>
      apply divided_shape in Hd
  end.
  match goal with
  | Hn : newaxis1 _ = _ |- _ =>
      destruct (newaxis1_shape _ _ Hn) as (m & rest & _ & HsD)
  end.
  split; [assumption|]. split; [congruence|]. eauto.
Qed.

(** In every record [camera_matrix] returns, [K] and [K_scaled] are 3x3
    arrays and [D] has at least two dimensions, the second of length one:
    a record can only fail the shape check of [undistort] on the first
    dimension of [D], on further dimensions of [D], or on [xi]. *)
Theorem camera_matrix_record_shapes `{NumPy} doc idx sc s lK lD lxi lKs s' :
  camera_matrix doc idx sc s = (Ret [lK; lD; lxi; lKs], s') ->
  exists K D Ks n rest,
    arrays s' !! lK = Some K /\ arrays s' !! lD = Some D /\
    arrays s' !! lKs = Some Ks /\
    shape K = [3; 3]%nat /\ shape Ks = [3; 3]%nat /\
    shape D = n :: 1%nat :: rest.
Proof.
  intros E. pose proof (camera_matrix_extract s doc idx sc) as R.
  destruct (extract (objects s) doc idx sc) as [e|[[[K D] xi] Ks]] eqn:X.
  - destruct R as (g & R). rewrite R in E. discriminate E.
  - rewrite R in E. injection E as <- <- <- <- <-.
    destruct (extract_shapes _ _ _ _ _ _ _ _ X) as (HsK & HsKs & n & rest & HsD).
    exists K, D, Ks, n, rest. cbn [arrays].
    rewrite lookup_new0, !lookup_new. repeat split; assumption.
Qed.

Lemma camera_matrix_record_shapes_witness :
  exists K D Ks n rest,
    arrays (snd (@camera_matrix numpy_legacy (VRef 0%nat) 0 5%float
                   (initial (document [camera_three])))) !! 0%nat = Some K /\
    arrays (snd (@camera_matrix numpy_legacy (VRef 0%nat) 0 5%float
                   (initial (document [camera_three])))) !! 2%nat = Some D /\
    arrays (snd (@camera_matrix numpy_legacy (VRef 0%nat) 0 5%float
                   (initial (document [camera_three])))) !! 1%nat = Some Ks /\
    shape K = [3; 3]%nat /\ shape Ks = [3; 3]%nat /\
    shape D = n :: 1%nat :: rest.
Proof.
  apply (@camera_matrix_record_shapes numpy_legacy (VRef 0%nat) 0 5%float
           (initial (document [camera_three])) 0%nat 2%nat 3%nat 1%nat).
  vm_compute. reflexivity.
Defined.

Lemma camera_matrix_returns_empty `{NumPy} s doc idx sc e :
  extract (objects s) doc idx sc = inl e ->
  fst (camera_matrix doc idx sc s) = Ret [].
Proof.
  intros E. destruct (camera_matrix_fails s doc idx sc e E) as (g & ->).
  reflexivity.
Qed.

(** A document that is not a mapping with an ["ncameras"] entry (an empty
    file, a list, a scalar, a mapping without the key) gives the empty
    list. *)
Theorem camera_matrix_without_ncameras `{NumPy} doc idx sc s :
  (forall d v, is_dict (objects s) doc d -> d !! "ncameras" = Some v -> False) ->
  fst (camera_matrix doc idx sc s) = Ret [].
Proof.
  intros Hno.
  assert (E : exists e, getitem_str (objects s) doc "ncameras" = inl e).
  { unfold getitem_str. destruct doc as [| | | | |l]; eauto.
    destruct (objects s !! l) as [[xs|d]|] eqn:El; eauto.
    destruct (d !! "ncameras") as [v|] eqn:Ed; eauto.
    exfalso. apply (Hno d v); [exists l; auto|exact Ed]. }
  destruct E as (e & E).
  apply (camera_matrix_returns_empty s doc idx sc e).
  unfold extract. rewrite E. reflexivity.
Qed.

Lemma camera_matrix_without_ncameras_witness :
  fst (@camera_matrix numpy_recent VNone 0 5%float
         (initial (document [camera_float]))) = Ret [].
Proof.
  apply (@camera_matrix_without_ncameras numpy_recent VNone 0 5%float
           (initial (document [camera_float]))).
  intros d v (l & Hl & _) _. discriminate Hl.
Defined.

Lemma extract_to_camera `{NumPy} h doc idx s cams entry d vc :
  cameras_of h doc cams -> py_index cams idx = Some entry ->
  is_dict h entry d -> d !! "camera" = Some vc ->
  extract h doc idx s =
  (i1 <~ intrinsic h vc 1 ;
   i3 <~ intrinsic h vc 3 ;
   i2 <~ intrinsic h vc 2 ;
   i4 <~ intrinsic h vc 4 ;
   K <~ np_array (rows33 h i1 i3 i2 i4) ;
   K1 <~ divided K 0 0 s ;
   K_scaled <~ divided K1 1 1 s ;
   d1 <~ getitem_str h vc "distortion" ;
   d2 <~ getitem_str h d1 "parameters" ;
   dist <~ getitem_str h d2 "data" ;
   flat <~ np_array (read_nested h NPY_MAXDIMS dist) ;
   D <~ newaxis1 flat ;
   i0 <~ intrinsic h vc 0 ;
   xi <~ np_array (read_nested h NPY_MAXDIMS i0) ;
   inr (K, D, xi, K_scaled)).
Proof.
  intros (d0 & v1 & systems & v2 & d2 & v3 & A1 & A2 & A3 & A4 & A5 & A6 & A7)
         Hidx B1 B2.
  unfold extract.
  rewrite (getitem_str_dict _ _ _ _ _ A1 A2). cbn [ebind].
  rewrite (getitem_int_list _ _ _ 0 _ A3 A4). cbn [ebind].
  rewrite (getitem_str_dict _ _ _ _ _ A5 A6). cbn [ebind].
  rewrite (getitem_int_list _ _ _ _ _ A7 Hidx). cbn [ebind].
  rewrite (getitem_str_dict _ _ _ _ _ B1 B2). reflexivity.
Qed.

Lemma getitem_str_missing h v d k :
  is_dict h v d -> d !! k = None -> getitem_str h v k = inl KeyError.
Proof. intros (l & -> & Hl) Hk. unfold getitem_str. by rewrite Hl, Hk. Qed.

Ltac skip_step :=
  match goal with
  | |- exists e, ebind ?r _ = inl e =>
      let x := fresh "x" in
      destruct r as [?|x]; cbn [ebind]; [eauto|]
  end.

(** A camera object without an ["intrinsics"] entry, or without a
    ["distortion"] entry, gives the empty list, whatever else it holds. *)
Theorem camera_matrix_missing_camera_key `{NumPy} doc idx sc s
    cams entry d vc dc :
  cameras_of (objects s) doc cams -> py_index cams idx = Some entry ->
  is_dict (objects s) entry d -> d !! "camera" = Some vc ->
  is_dict (objects s) vc dc ->
  dc !! "intrinsics" = None \/ dc !! "distortion" = None ->
  fst (camera_matrix doc idx sc s) = Ret [].
Proof.
  intros Hc Hi He Hcam Hdc Hmiss.
  assert (E : exists e, extract (objects s) doc idx sc = inl e).
  { rewrite (extract_to_camera _ _ _ _ _ _ _ _ Hc Hi He Hcam).
    destruct Hmiss as [Hm|Hm].
    - unfold intrinsic at 1.
      rewrite (getitem_str_missing _ _ _ _ Hdc Hm). cbn [ebind]. eauto.
    - do 7 skip_step.
      rewrite (getitem_str_missing _ _ _ _ Hdc Hm). cbn [ebind]. eauto. }
  destruct E as (e & E). exact (camera_matrix_returns_empty s doc idx sc e E).
Qed.

Lemma camera_matrix_missing_camera_key_witness :
  fst (@camera_matrix numpy_recent (VRef 0%nat) 0 5%float
         (initial document_without_distortion)) = Ret [].
Proof.
  apply (@camera_matrix_missing_camera_key numpy_recent (VRef 0%nat) 0 5%float
           (initial document_without_distortion)
           [VRef 4%nat] (VRef 4%nat) {[ "camera" := VRef 5%nat ]}
           (VRef 5%nat) {[ "intrinsics" := VRef 6%nat ]}).
  - unfold cameras_of, is_dict, is_list. solve_doc.
  - reflexivity.
  - unfold is_dict. solve_doc.
  - reflexivity.
  - unfold is_dict. solve_doc.
  - right. reflexivity.
Defined.

Lemma read_nested_not_list h n v :
  (forall xs, ~ is_list h v xs) -> read_nested h n v = Leaf v.
Proof.
  intros Hn. destruct n; [reflexivity|]. cbn [read_nested].
  destruct v as [| | | | |l]; try reflexivity.
  destruct (h !! l) as [[xs|d]|] eqn:E; try reflexivity.
  exfalso. apply (Hn xs). exists l. auto.
Qed.

Lemma np_array_leaf `{NumPy} v :
  np_array (Leaf v) = inr (mk_ndarray [] (pack [v])).
Proof. reflexivity. Qed.

(** Distortion data that is not a list (a number, a text, a mapping, null)
    gives the empty list: the 0-dimensional array has no axis to slice. *)
Theorem camera_matrix_scalar_distortion `{NumPy} doc idx sc s
    cams entry vi vd :
  cameras_of (objects s) doc cams -> py_index cams idx = Some entry ->
  camera_entry (objects s) entry vi vd ->
  (forall xs, ~ is_list (objects s) vd xs) ->
  fst (camera_matrix doc idx sc s) = Ret [].
Proof.
  intros Hc Hi He Hvd.
  assert (E : exists e, extract (objects s) doc idx sc = inl e).
  { destruct (extract_navigate (objects s) doc idx sc _ _ _ _ Hc Hi He)
      as (cm & _ & ->).
    do 7 skip_step.
    rewrite (read_nested_not_list _ _ _ Hvd), np_array_leaf.
    cbn [ebind newaxis1 shape]. eauto. }
  destruct E as (e & E). exact (camera_matrix_returns_empty s doc idx sc e E).
Qed.

Lemma camera_matrix_scalar_distortion_witness :
  fst (@camera_matrix numpy_recent (VRef 0%nat) 0 5%float
         (initial document_scalar_distortion)) = Ret [].
Proof.
  apply (@camera_matrix_scalar_distortion numpy_recent (VRef 0%nat) 0 5%float
           (initial document_scalar_distortion)
           [VRef 4%nat] (VRef 4%nat) (VRef 7%nat) (VFloat 0.5)).
  - unfold cameras_of, is_dict, is_list. solve_doc.
  - reflexivity.
  - unfold camera_entry, is_dict. solve_doc.
  - intros xs (l & Hl & _). discriminate Hl.
Defined.



(** ** [undistort] past its checks *)

Lemma undistort_checked `{OpenCV} s image_path verbose
    lK lD lxi lKs K D xi Ks :
  arrays s !! lK = Some K -> arrays s !! lD = Some D ->
  arrays s !! lxi = Some xi -> arrays s !! lKs = Some Ks ->
  shape K = [3; 3]%nat -> shape D = [4; 1]%nat -> shape xi = [] ->
  shape Ks = [3; 3]%nat ->
  undistort image_path [lK; lD; lxi; lKs] verbose s =
  match cv2_imread image_path with
  | None =>
      (Ret None,
       add_events s [EvImRead image_path;
                     EvPrint "[Error] Can not load image from path!"])
  | Some image =>
      match cv2_omnidir_initUndistortRectifyMap K D xi np_eye3 Ks
              (cols image, rows image) CV_16SC2 RECTIFY_PERSPECTIVE with
      | None => (Raise CvError, add_events s [EvImRead image_path])
      | Some maps =>
          match cv2_remap image (fst maps) (snd maps)
                  INTER_LINEAR BORDER_CONSTANT with
          | None => (Raise CvError, add_events s [EvImRead image_path])
          | Some out =>
              (Ret (Some out),
               add_events s
                 (EvImRead image_path ::
                  if verbose
                  then [EvPrint (tab +:+ " Finish processing image "
                                   +:+ basename image_path)]
                  else []))
          end
      end
  end.
Proof.
  intros HK HD Hxi HKs SK SD Sxi SKs. unfold undistort.
  cbn [length Nat.eqb negb lookup list_lookup from_option lift].
  rewrite !bind_ret_l.
  rewrite (bind_deref _ _ _ _ HK), (bind_deref _ _ _ _ HD),
          (bind_deref _ _ _ _ Hxi), (bind_deref _ _ _ _ HKs).
  rewrite SK, SD, Sxi, SKs, !shape_eqb_eq. cbn [negb orb].
  unfold imread. rewrite bind_assoc. unfold bind at 1. cbn [emit].
  rewrite bind_ret_l. unfold add_events.
  destruct (cv2_imread image_path) as [image|].
  - destruct (cv2_omnidir_initUndistortRectifyMap _ _ _ _ _ _ _ _)
      as [maps|]; cbn [cv_call]; [|reflexivity].
    rewrite bind_ret_l.
    destruct (cv2_remap _ _ _ _ _) as [out|]; cbn [cv_call]; [|reflexivity].
    rewrite bind_ret_l.
    destruct verbose; unfold bind, print, emit, ret;
      cbn [objects arrays images_list trace];
      rewrite <- ?app_assoc; reflexivity.
  - unfold bind, print, emit, ret. cbn [objects arrays images_list trace].
    rewrite <- app_assoc. reflexivity.
Qed.

(** With a record that passes the checks and a file that does not decode,
    [undistort] returns [None]: the file is read once, the error line is
    printed, OpenCV's mapping is not called and nothing is raised. *)
Theorem undistort_unreadable_image `{OpenCV} s image_path verbose
    lK lD lxi lKs K D xi Ks :
  arrays s !! lK = Some K -> arrays s !! lD = Some D ->
  arrays s !! lxi = Some xi -> arrays s !! lKs = Some Ks ->
  shape K = [3; 3]%nat -> shape D = [4; 1]%nat -> shape xi = [] ->
  shape Ks = [3; 3]%nat ->
  cv2_imread image_path = None ->
  undistort image_path [lK; lD; lxi; lKs] verbose s =
  (Ret None,
   add_events s [EvImRead image_path;
                 EvPrint "[Error] Can not load image from path!"]).
Proof.
  intros HK HD Hxi HKs SK SD Sxi SKs Him.
  rewrite (undistort_checked s image_path verbose _ _ _ _ _ _ _ _
             HK HD Hxi HKs SK SD Sxi SKs), Him.
  reflexivity.
Qed.

(** An error raised by OpenCV while building the maps or remapping is not
    caught by [undistort]: the call ends with that exception, after the one
    read of the file. *)
Theorem undistort_propagates_cv_error `{OpenCV} s image_path verbose
    lK lD lxi lKs K D xi Ks image :
  arrays s !! lK = Some K -> arrays s !! lD = Some D ->
  arrays s !! lxi = Some xi -> arrays s !! lKs = Some Ks ->
  shape K = [3; 3]%nat -> shape D = [4; 1]%nat -> shape xi = [] ->
  shape Ks = [3; 3]%nat ->
  cv2_imread image_path = Some image ->
  (cv2_omnidir_initUndistortRectifyMap K D xi np_eye3 Ks
     (cols image, rows image) CV_16SC2 RECTIFY_PERSPECTIVE = None \/
   exists maps,
     cv2_omnidir_initUndistortRectifyMap K D xi np_eye3 Ks
       (cols image, rows image) CV_16SC2 RECTIFY_PERSPECTIVE = Some maps /\
     cv2_remap image (fst maps) (snd maps) INTER_LINEAR BORDER_CONSTANT
       = None) ->
  undistort image_path [lK; lD; lxi; lKs] verbose s =
  (Raise CvError, add_events s [EvImRead image_path]).
Proof.
  intros HK HD Hxi HKs SK SD Sxi SKs Him Hcv.
  rewrite (undistort_checked s image_path verbose _ _ _ _ _ _ _ _
             HK HD Hxi HKs SK SD Sxi SKs), Him.
  destruct Hcv as [-> | (maps & -> & ->)]; reflexivity.
Qed.

Lemma image_events_app t1 t2 :
  image_events (t1 ++ t2) = image_events t1 ++ image_events t2.
Proof. unfold image_events. apply filter_app. Qed.

Lemma add_events_nil s : add_events s [] = s.
Proof. destruct s. unfold add_events. cbn. by rewrite app_nil_r. Qed.

Lemma undistort_effects `{OpenCV} image_path camera_model verbose s :
  exists evs,
    snd (undistort image_path camera_model verbose s) = add_events s evs /\
    made evs = [] /\
    ((image_events evs = [] /\
      forall out, fst (undistort image_path camera_model verbose s)
                  <> Ret (Some out)) \/
     image_events evs = [EvImRead image_path]).
Proof.
  destruct (decide (length camera_model = 4%nat)) as [L|L].
  - destruct camera_model as [|lK [|lD [|lxi [|lKs [|? ?]]]]]; try discriminate L.
    unfold undistort.
    cbn [length Nat.eqb negb lookup list_lookup from_option lift].
    rewrite !bind_ret_l.
    destruct (arrays s !! lK) as [K|] eqn:HK;
      [rewrite (bind_deref _ _ _ _ HK)
      |exists []; rewrite add_events_nil; unfold bind, deref; rewrite HK;
       split; [reflexivity|split; [reflexivity|]];
       left; split; [reflexivity|discriminate]].
    destruct (arrays s !! lD) as [D|] eqn:HD;
      [rewrite (bind_deref _ _ _ _ HD)
      |exists []; rewrite add_events_nil; unfold bind, deref; rewrite HD;
       split; [reflexivity|split; [reflexivity|]];
       left; split; [reflexivity|discriminate]].
    destruct (arrays s !! lxi) as [xi|] eqn:Hxi;
      [rewrite (bind_deref _ _ _ _ Hxi)
      |exists []; rewrite add_events_nil; unfold bind, deref; rewrite Hxi;
       split; [reflexivity|split; [reflexivity|]];
       left; split; [reflexivity|discriminate]].
    destruct (arrays s !! lKs) as [Ks|] eqn:HKs;
      [rewrite (bind_deref _ _ _ _ HKs)
      |exists []; rewrite add_events_nil; unfold bind, deref; rewrite HKs;
       split; [reflexivity|split; [reflexivity|]];
       left; split; [reflexivity|discriminate]].
    destruct (negb (shape_eqb (shape K) [3; 3]%nat)
              || negb (shape_eqb (shape D) [4; 1]%nat)
              || negb (shape_eqb (shape xi) [])
              || negb (shape_eqb (shape Ks) [3; 3]%nat)) eqn:Hs.
    + eexists. split; [reflexivity|]. split; [reflexivity|].
      left. split; [reflexivity|discriminate].
    + apply orb_false_iff in Hs as [Hs S4].
      apply orb_false_iff in Hs as [Hs S3].
      apply orb_false_iff in Hs as [S1 S2].
      apply negb_false_iff, bool_decide_eq_true in S1, S2, S3, S4.
      pose proof (undistort_checked s image_path verbose _ _ _ _ _ _ _ _
                    HK HD Hxi HKs S1 S2 S3 S4) as R.
      unfold undistort in R.
      cbn [length Nat.eqb negb lookup list_lookup from_option lift] in R.
      rewrite !bind_ret_l in R.
      rewrite (bind_deref _ _ _ _ HK), (bind_deref _ _ _ _ HD),
              (bind_deref _ _ _ _ Hxi), (bind_deref _ _ _ _ HKs) in R.
      rewrite S1, S2, S3, S4, !shape_eqb_eq in R. cbn [negb orb] in R.
      rewrite R.
      destruct (cv2_imread image_path) as [image|].
      * destruct (cv2_omnidir_initUndistortRectifyMap _ _ _ _ _ _ _ _)
          as [maps|];
          [|eexists; split; [reflexivity|split; [reflexivity|]];
            right; reflexivity].
        destruct (cv2_remap _ _ _ _ _) as [out|];
          [|eexists; split; [reflexivity|split; [reflexivity|]];
            right; reflexivity].
        eexists; split; [reflexivity|].
        destruct verbose; (split; [reflexivity|]); right; reflexivity.
      * eexists; split; [reflexivity|split; [reflexivity|]];
          right; reflexivity.
  - unfold undistort.
    destruct (Nat.eqb_spec (length camera_model) 4) as [E|_]; [contradiction|].
    cbn [negb]. eexists. split; [reflexivity|]. split; [reflexivity|].
    left. split; [reflexivity|discriminate].
Qed.

(** [undistort] changes no Python object and no array, whatever it is
    given; of the images it touches at most the one it was asked to read,
    which it only reads, and when it returns an image it has read it. *)
Theorem undistort_frame `{OpenCV} image_path camera_model verbose s :
  objects (snd (undistort image_path camera_model verbose s)) = objects s /\
  arrays (snd (undistort image_path camera_model verbose s)) = arrays s /\
  exists evs,
    trace (snd (undistort image_path camera_model verbose s))
      = trace s ++ evs /\
    (image_events evs = [] \/ image_events evs = [EvImRead image_path]) /\
    (forall out,
        fst (undistort image_path camera_model verbose s) = Ret (Some out) ->
        image_events evs = [EvImRead image_path]).
Proof.
  destruct (undistort_effects image_path camera_model verbose s)
    as (evs & -> & _ & Hev).
  cbn [add_events objects arrays trace]. repeat split.
  exists evs. split; [reflexivity|]. split.
  - destruct Hev as [[-> _] | ->]; auto.
  - intros out Ho. destruct Hev as [[_ Hn] | ->]; [|reflexivity].
    destruct (Hn out Ho).
Qed.

Lemma undistort_unreadable_image_witness :
  @undistort opencv_unreadable "in/front/a.png" [0; 2; 3; 1]%nat false
    (snd (@camera_matrix numpy_recent (VRef 0%nat) 0 5%float
            (initial (document [camera_float]))))
  = (Ret None,
     add_events
       (snd (@camera_matrix numpy_recent (VRef 0%nat) 0 5%float
               (initial (document [camera_float]))))
       [EvImRead "in/front/a.png";
        EvPrint "[Error] Can not load image from path!"]).
Proof.
  apply (@undistort_unreadable_image opencv_unreadable
           (snd (@camera_matrix numpy_recent (VRef 0%nat) 0 5%float
                   (initial (document [camera_float]))))
           "in/front/a.png" false 0%nat 2%nat 3%nat 1%nat
           (K_of (VFloat 800.5) (VFloat 800.25) (VFloat 640.5) (VFloat 480.5))
           (mk_ndarray [4; 1]%nat (DFloat64 [0.5; 0.25; 0.125; 0.0625]%float))
           (mk_ndarray [] (DFloat64 [1.125]%float))
           (K_scaled_of (VFloat 800.5) (VFloat 800.25) (VFloat 640.5)
                        (VFloat 480.5) 5%float)).
  - vm_compute. reflexivity.
  - vm_compute. reflexivity.
  - vm_compute. reflexivity.
  - vm_compute. reflexivity.
  - reflexivity.
  - reflexivity.
  - reflexivity.
  - reflexivity.
  - reflexivity.
Defined.

Lemma undistort_propagates_cv_error_witness :
  @undistort opencv_rejecting "in/front/a.png" [0; 2; 3; 1]%nat false
    (snd (@camera_matrix numpy_recent (VRef 0%nat) 0 5%float
            (initial (document [camera_float]))))
  = (Raise CvError,
     add_events
       (snd (@camera_matrix numpy_recent (VRef 0%nat) 0 5%float
               (initial (document [camera_float]))))
       [EvImRead "in/front/a.png"]).
Proof.
  apply (@undistort_propagates_cv_error opencv_rejecting
           (snd (@camera_matrix numpy_recent (VRef 0%nat) 0 5%float
                   (initial (document [camera_float]))))
           "in/front/a.png" false 0%nat 2%nat 3%nat 1%nat
           (K_of (VFloat 800.5) (VFloat 800.25) (VFloat 640.5) (VFloat 480.5))
           (mk_ndarray [4; 1]%nat (DFloat64 [0.5; 0.25; 0.125; 0.0625]%float))
           (mk_ndarray [] (DFloat64 [1.125]%float))
           (K_scaled_of (VFloat 800.5) (VFloat 800.25) (VFloat 640.5)
                        (VFloat 480.5) 5%float)
           example_image).
  - vm_compute. reflexivity.
  - vm_compute. reflexivity.
  - vm_compute. reflexivity.
  - vm_compute. reflexivity.
  - reflexivity.
  - reflexivity.
  - reflexivity.
  - reflexivity.
  - reflexivity.
  - left. reflexivity.
Defined.

(** ** [camera_matrix] followed by [undistort] *)

Lemma numeric_buffer_float vs :
  forallb is_int vs = false ->
  numeric_buffer vs = DFloat64 (map to_float vs).
Proof.
  intros Hf. unfold numeric_buffer. destruct vs as [|v vs]; [discriminate Hf|].
  rewrite Hf. reflexivity.
Qed.

Lemma scalable_float fx fy cx cy sc :
  forallb is_int [fx; fy; cx; cy] = false -> scalable fx fy cx cy sc = true.
Proof. intros Hf. unfold scalable. rewrite Hf. reflexivity. Qed.

Lemma float_record_valid x0 fx fy cx cy ds sc :
  length ds = 4%nat ->
  is_int x0 = false ->
  forallb is_int [fx; fy; cx; cy] = false ->
  forallb is_int ds = false ->
  valid_record (K_of fx fy cx cy)
    (mk_ndarray [length ds; 1%nat] (numeric_buffer ds))
    (mk_ndarray [] (numeric_buffer [x0]))
    (K_scaled_of fx fy cx cy sc).
Proof.
  intros L Hx HK HD. unfold valid_record. rewrite L.
  repeat split.
  - unfold K_of, is_float64. cbn [data].
    rewrite numeric_buffer_float; [reflexivity|].
    cbn [forallb is_int] in HK |- *.
    destruct (is_int fx), (is_int fy), (is_int cx), (is_int cy);
      try discriminate HK; reflexivity.
  - unfold is_float64. cbn [data]. rewrite numeric_buffer_float by exact HD.
    reflexivity.
  - unfold is_float64. cbn [data]. rewrite numeric_buffer_float; [reflexivity|].
    cbn [forallb]. rewrite Hx. reflexivity.
  - unfold K_scaled_of, is_float64. cbn [data]. rewrite HK. reflexivity.
Qed.

(** A calibration record written with floats and four distortion
    coefficients, taken through [camera_matrix] and then [undistort]: the
    record is accepted, and a file that decodes to an image gives an image
    of the same rows and columns, given OpenCV's size contract. *)
Theorem float_record_rectifies_image `{NumPy} `{OpenCV} s doc idx sc
    x0 fx fy cx cy ds image_path verbose image :
  opencv_contract ->
  camera_data (objects s) doc idx [x0; fx; fy; cx; cy] ds ->
  forallb numeric [x0; fx; fy; cx; cy] = true ->
  forallb numeric ds = true ->
  length ds = 4%nat ->
  is_int x0 = false ->
  forallb is_int [fx; fy; cx; cy] = false ->
  forallb is_int ds = false ->
  cv2_imread image_path = Some image ->
  exists camera_model s1 out s2,
    camera_matrix doc idx sc s = (Ret camera_model, s1) /\
    undistort image_path camera_model verbose s1 = (Ret (Some out), s2) /\
    rows out = rows image /\ cols out = cols image /\
    image_events (trace s2) = image_events (trace s) ++ [EvImRead image_path].
Proof.
  intros [Hinit Hremap] Hd Hn Hds L Hx HK HD Him.
  pose proof (float_record_valid x0 fx fy cx cy ds sc L Hx HK HD) as Hv.
  pose proof Hv as (SK & SD & Sxi & SKs & _).
  rewrite (camera_matrix_well_formed s doc idx sc _ _ _ _ _ _ Hd Hn Hds
             (scalable_float _ _ _ _ _ HK)).
  set (s1 := mk_state _ _ _ _).
  destruct (Hinit _ _ _ np_eye3 _ (cols image) (rows image) Hv)
    as (m1 & m2 & Em & R1 & C1 & R2 & C2).
  destruct (Hremap image m1 m2) as (out & Eo & Ro & Co & _); [congruence..|].
  eexists _, s1, out, _. split; [reflexivity|].
  rewrite (undistort_checked s1 image_path verbose _ _ _ _
             (K_of fx fy cx cy)
             (mk_ndarray [length ds; 1%nat] (numeric_buffer ds))
             (mk_ndarray [] (numeric_buffer [x0]))
             (K_scaled_of fx fy cx cy sc)); try assumption.
  - rewrite Him, Em. cbn [fst snd]. rewrite Eo.
    split; [reflexivity|].
    split; [congruence|]. split; [congruence|].
    cbn [add_events trace]. subst s1. cbn [trace].
    rewrite image_events_app. f_equal.
    destruct verbose; reflexivity.
  - subst s1. cbn [arrays]. rewrite lookup_new0. reflexivity.
  - subst s1. cbn [arrays]. rewrite lookup_new. reflexivity.
  - subst s1. cbn [arrays]. rewrite lookup_new. reflexivity.
  - subst s1. cbn [arrays]. rewrite lookup_new. reflexivity.
Qed.



Lemma float_record_rectifies_image_witness :
  exists camera_model s1 out s2,
    @camera_matrix numpy_recent (VRef 0%nat) 0 5%float
      (initial (document [camera_float])) = (Ret camera_model, s1) /\
    @undistort opencv_example "in/front/a.png" camera_model false s1
      = (Ret (Some out), s2) /\
    rows out = rows example_image /\ cols out = cols example_image /\
    image_events (trace s2) =
      image_events (trace (initial (document [camera_float])))
        ++ [EvImRead "in/front/a.png"].
Proof.
  apply (@float_record_rectifies_image numpy_recent opencv_example
           (initial (document [camera_float])) (VRef 0%nat) 0 5%float
           (VFloat 1.125) (VFloat 800.5) (VFloat 800.25) (VFloat 640.5)
           (VFloat 480.5) distortion4 "in/front/a.png" false example_image
           opencv_example_contract camera_float_data);
    reflexivity.
Defined.


(** ** [Counter] *)

Lemma Counter_lookup names x :
  Counter names !! x =
  match count_occ String.string_dec names x with
  | O => None
  | n => Some n
  end.
Proof.
  induction names as [|y names IH]; [apply lookup_empty|].
  cbn [Counter foldr]. fold (Counter names).
  destruct (decide (y = x)) as [->|Hne].
  - rewrite lookup_insert_eq, count_occ_cons_eq by reflexivity.
    rewrite IH. destruct (count_occ _ names x); reflexivity.
  - rewrite lookup_insert_ne, count_occ_cons_neq by assumption. exact IH.
Qed.

Lemma Counter_Permutation l1 l2 : Counter l1 = Counter l2 <-> l1 ≡ₚ l2.
Proof.
  rewrite (Permutation_count_occ String.string_dec). split.
  - intros E x. pose proof (f_equal (fun m => m !! x) E) as Ex.
    cbv beta in Ex. rewrite !Counter_lookup in Ex.
    destruct (count_occ _ l1 x), (count_occ _ l2 x); congruence.
  - intros E. apply map_eq. intros x. rewrite !Counter_lookup, E. reflexivity.
Qed.

(** ** Running [main] *)

Lemma add_events_add s a b :
  add_events (add_events s a) b = add_events s (a ++ b).
Proof. unfold add_events. cbn. by rewrite app_assoc. Qed.

Lemma bind_emit {B} e (k : unit -> M B) s :
  bind (emit e) k s = k tt (add_events s [e]).
Proof. reflexivity. Qed.

Lemma bind_print {B} line (k : unit -> M B) s :
  bind (print line) k s = k tt (add_events s [EvPrint line]).
Proof. reflexivity. Qed.

Lemma bind_sys_exit {A B} (k : A -> M B) s :
  bind sys_exit k s = (Raise SystemExit, s).
Proof. reflexivity. Qed.

Lemma made_app t1 t2 : made (t1 ++ t2) = made t1 ++ made t2.
Proof. apply omap_app. Qed.

Ltac run :=
  repeat first
    [ rewrite bind_assoc
    | rewrite bind_print
    | rewrite bind_emit
    | rewrite bind_ret_l
    | rewrite bind_sys_exit
    | progress cbv beta iota zeta ].

Lemma main_stops_with_prepare `{NumPy} `{OpenCV} `{Host} args s e s' :
  prepare args s = (Raise e, s') -> main args s = (Raise e, s').
Proof. intros E. unfold main, bind. rewrite E. reflexivity. Qed.

Lemma names_check `{Host} dirs :
  bool_decide (Counter (map basename dirs) = Counter (map fst CAMERA_INDEX_DICT))
  = bool_decide (map basename dirs ≡ₚ expected_names).
Proof.
  apply bool_decide_ext. apply Counter_Permutation.
Qed.

Lemma prepare_input_checks `{Host} args s sc :
  float_of_int (scale args) = inr sc ->
  (os_path_isfile (yaml_file args) = false \/
   (exists exc, yaml_safe_load (yaml_file args) = inl exc) \/
   length (os_walk (inputs_dir args)) <> 5%nat \/
   ~ map basename (tail (map os_path_realpath (os_walk (inputs_dir args))))
       ≡ₚ expected_names) ->
  exists evs,
    prepare args s = (Raise SystemExit, add_events s evs) /\
    made evs = [] /\ image_events evs = [].
Proof.
  intros Hsc Hbad. unfold prepare. rewrite Hsc, bind_lift.
  destruct (os_path_isfile (yaml_file args)) eqn:Hfile; cbn [negb];
    [|destruct (v args); run; rewrite ?add_events_add;
      eexists; (split; [reflexivity|]); split; reflexivity].
  destruct (yaml_safe_load (yaml_file args)) as [exc|document] eqn:Hyaml;
    [destruct (v args); run; rewrite ?add_events_add;
     eexists; (split; [reflexivity|]); split; reflexivity|].
  rewrite length_map.
  change (length (map fst CAMERA_INDEX_DICT) + 1)%nat with 5%nat.
  destruct (Nat.eqb_spec (length (os_walk (inputs_dir args))) 0) as [L0|L0];
    [destruct (v args); run; rewrite ?add_events_add;
     eexists; (split; [reflexivity|]); split; reflexivity|].
  destruct (Nat.eqb_spec (length (os_walk (inputs_dir args))) 5)
    as [L5|L5]; cbn [negb];
    [|destruct (v args); run; rewrite ?add_events_add;
      eexists; (split; [reflexivity|]); split; reflexivity].
  rewrite names_check.
  destruct Hbad as [Hb|[[exc Hb]|[Hb|Hb]]]; try congruence.
  rewrite (bool_decide_eq_false_2 _ Hb). cbn [negb].
  destruct (v args); run; rewrite ?add_events_add;
    eexists; (split; [reflexivity|]); split; reflexivity.
Qed.

(** ** The output folders *)

Lemma bind_mkdir_tolerant_print `{Host} {B} p w (k : unit -> M B) s :
  bind (try_except_only is_OSError (mkdir p) (print w)) k s =
  k tt (add_events s
          (if os_mkdir (made (trace s)) p then [EvMkdir p] else [EvPrint w])).
Proof.
  unfold bind, try_except_only, mkdir.
  destruct (os_mkdir _ _); reflexivity.
Qed.

Lemma bind_mkdir_tolerant_quiet `{Host} {B} p (k : unit -> M B) s :
  bind (try_except_only is_OSError (mkdir p) (ret tt)) k s =
  k tt (add_events s (if os_mkdir (made (trace s)) p then [EvMkdir p] else [])).
Proof.
  unfold bind, try_except_only, mkdir.
  destruct (os_mkdir _ _); cbn [is_OSError ret emit];
    rewrite ?add_events_nil; reflexivity.
Qed.

Lemma tail_length_pred {X} (l : list X) : length (tail l) = pred (length l).
Proof. destruct l; reflexivity. Qed.

Lemma made_add_events s evs :
  made (trace (add_events s evs)) = made (trace s) ++ made evs.
Proof. cbn [add_events trace]. apply made_app. Qed.

Lemma bind_mkdir_sub `{Host} {B} p w (k : unit -> M B) s :
  bind (try_except_only is_OSError (mkdir p) (print w ;;; sys_exit)) k s =
  if os_mkdir (made (trace s)) p then k tt (add_events s [EvMkdir p])
  else (Raise SystemExit, add_events s [EvPrint w]).
Proof.
  unfold bind, try_except_only, mkdir.
  destruct (os_mkdir _ _); reflexivity.
Qed.

Lemma prepare_returns `{Host} args s cp sc out subs s' :
  prepare args s = (Ret (cp, sc, out, subs), s') ->
  float_of_int (scale args) = inr sc /\
  os_path_isfile (yaml_file args) = true /\
  yaml_safe_load (yaml_file args) = inr cp /\
  out = os_path_realpath (outputs_dir args) /\
  subs = tail (map os_path_realpath (os_walk (inputs_dir args))) /\
  length subs = 4%nat /\
  map basename subs ≡ₚ expected_names /\
  exists evs,
    s' = add_events s evs /\ image_events evs = [] /\
    made evs =
      (if os_mkdir (made (trace s)) (outputs_dir args)
       then [outputs_dir args] else [])
      ++ map (fun n => out +:+ "/" +:+ n) expected_names.
Proof.
  unfold prepare.
  destruct (float_of_int (scale args)) as [e|sc0] eqn:Hsc;
    [discriminate|]. rewrite bind_lift.
  destruct (os_path_isfile (yaml_file args)) eqn:Hfile; cbn [negb];
    [|destruct (v args); run; discriminate].
  destruct (yaml_safe_load (yaml_file args)) as [exc|document] eqn:Hyaml;
    [destruct (v args); run; discriminate|].
  rewrite length_map.
  change (length (map fst CAMERA_INDEX_DICT) + 1)%nat with 5%nat.
  destruct (Nat.eqb_spec (length (os_walk (inputs_dir args))) 0) as [L0|L0];
    [destruct (v args); run; discriminate|].
  destruct (Nat.eqb_spec (length (os_walk (inputs_dir args))) 5)
    as [L5|L5]; cbn [negb];
    [|destruct (v args); run; discriminate].
  rewrite names_check.
  destruct (bool_decide_reflect
              (map basename (tail (map os_path_realpath
                                     (os_walk (inputs_dir args))))
               ≡ₚ expected_names)) as [Hperm|Hperm]; cbn [negb];
    [|destruct (v args); run; discriminate].
  change (map fst CAMERA_INDEX_DICT) with expected_names.
  unfold expected_names at 1. cbn [for_each].
  destruct (v args).
  - run. rewrite ?add_events_add. cbn [app].
    rewrite bind_mkdir_tolerant_print, made_add_events.
    cbn [made omap list_omap]. rewrite app_nil_r.
    run. rewrite bind_mkdir_sub.
    destruct (os_mkdir _ _) eqn:M1 in |- *; [|discriminate].
    run. rewrite bind_mkdir_sub.
    destruct (os_mkdir _ _) eqn:M2 in |- *; [|discriminate].
    run. rewrite bind_mkdir_sub.
    destruct (os_mkdir _ _) eqn:M3 in |- *; [|discriminate].
    run. rewrite bind_mkdir_sub.
    destruct (os_mkdir _ _) eqn:M4 in |- *; [|discriminate].
    run. unfold ret. intros [= <- <- <- <- <-].
    repeat (split; [first [reflexivity | assumption]|]).
    split.
    { rewrite tail_length_pred, length_map, L5. reflexivity. }
    split; [assumption|].
    rewrite !add_events_add. eexists. split; [reflexivity|].
    destruct (os_mkdir (made (trace s)) (outputs_dir args));
      split; reflexivity.
  - run. rewrite ?add_events_add. cbn [app].
    rewrite bind_mkdir_tolerant_quiet, made_add_events.
    cbn [made omap list_omap]. rewrite app_nil_r.
    run. rewrite bind_mkdir_sub.
    destruct (os_mkdir _ _) eqn:M1 in |- *; [|discriminate].
    run. rewrite bind_mkdir_sub.
    destruct (os_mkdir _ _) eqn:M2 in |- *; [|discriminate].
    run. rewrite bind_mkdir_sub.
    destruct (os_mkdir _ _) eqn:M3 in |- *; [|discriminate].
    run. rewrite bind_mkdir_sub.
    destruct (os_mkdir _ _) eqn:M4 in |- *; [|discriminate].
    run. unfold ret. intros [= <- <- <- <- <-].
    repeat (split; [first [reflexivity | assumption]|]).
    split.
    { rewrite tail_length_pred, length_map, L5. reflexivity. }
    split; [assumption|].
    rewrite !add_events_add. eexists. split; [reflexivity|].
    destruct (os_mkdir (made (trace s)) (outputs_dir args));
      split; reflexivity.
Qed.

(** ** One file of a folder *)

Lemma bind_get_images_list {B} (k : list string -> M B) s :
  bind get_images_list k s = k (images_list s) s.
Proof. reflexivity. Qed.

Lemma bind_set_images_list {B} l (k : unit -> M B) s :
  bind (set_images_list l) k s =
  k tt (mk_state (objects s) (arrays s) l (trace s)).
Proof. reflexivity. Qed.

Lemma print_run line s : print line s = (Ret tt, add_events s [EvPrint line]).
Proof. reflexivity. Qed.

Ltac state_eq :=
  rewrite ?print_run; rewrite ?add_events_add;
  cbn [ret fst snd add_events objects arrays images_list trace];
  rewrite <- ?app_assoc; reflexivity.

Lemma process_file_effects `{OpenCV} dir name out camera_model verbose file s :
  exists evs,
    snd (process_file dir name out camera_model verbose file s) =
      mk_state (objects s) (arrays s)
        (images_list s ++
           if endswith file ".png" then [dir +:+ "/" +:+ file] else [])
        (trace s ++ evs) /\
    made evs = [] /\
    (image_events evs = [] \/
     image_events evs = [EvImRead (dir +:+ "/" +:+ file)] \/
     exists img,
       image_events evs =
         [EvImRead (dir +:+ "/" +:+ file);
          EvImWrite (out +:+ "/" +:+ name +:+ "/" +:+ file) img]) /\
    (endswith file ".png" = false ->
     evs = [] /\ fst (process_file dir name out camera_model verbose file s)
                 = Ret tt).
Proof.
  unfold process_file. destruct (endswith file ".png") eqn:Hpng.
  - rewrite bind_get_images_list, bind_set_images_list.
    set (s1 := mk_state _ _ _ _). set (p := dir +:+ "/" +:+ file).
    destruct (undistort_effects p camera_model verbose s1)
      as (evs & Hsnd & Hmade & Hev).
    unfold bind at 1.
    destruct (undistort p camera_model verbose s1) as [[[img|]|e] s2] eqn:U;
      cbn [fst snd] in Hsnd, Hev; subst s2.
    + assert (Hr : image_events evs = [EvImRead p]).
      { destruct Hev as [[_ Hn]|Hr]; [destruct (Hn img eq_refl)|exact Hr]. }
      unfold imwrite. rewrite bind_assoc, bind_emit.
      destruct (cv2_imwrite _ img) as [[|]|]; cbn [cv_call];
        rewrite ?bind_ret_l.
      * exists (evs ++ [EvImWrite (out +:+ "/" +:+ name +:+ "/" +:+ file) img]).
        split; [subst s1 p; state_eq|].
        split; [rewrite made_app, Hmade; reflexivity|].
        split; [|discriminate].
        right. right. exists img. rewrite image_events_app, Hr. reflexivity.
      * exists (evs ++ [EvImWrite (out +:+ "/" +:+ name +:+ "/" +:+ file) img;
                        EvPrint ("[WARN] Fail to save the undistorted image: "
                                   +:+ file)]).
        split; [subst s1 p; state_eq|].
        split; [rewrite made_app, Hmade; reflexivity|].
        split; [|discriminate].
        right. right. exists img. rewrite image_events_app, Hr. reflexivity.
      * exists (evs ++ [EvImWrite (out +:+ "/" +:+ name +:+ "/" +:+ file) img]).
        split; [subst s1 p; state_eq|].
        split; [rewrite made_app, Hmade; reflexivity|].
        split; [|discriminate].
        right. right. exists img. rewrite image_events_app, Hr. reflexivity.
    + exists (evs ++ [EvPrint
                        ("[WARN] Pass the image with undistortion process fail: "
                           +:+ file)]).
      split; [subst s1 p; state_eq|].
      split; [rewrite made_app, Hmade; reflexivity|].
      split; [|discriminate].
      rewrite image_events_app, app_nil_r.
      destruct Hev as [[-> _] | ->]; auto.
    + exists evs. split; [reflexivity|]. split; [exact Hmade|].
      split; [|discriminate].
      destruct Hev as [[-> _] | ->]; auto.
  - exists []. cbn [ret snd fst]. rewrite !app_nil_r. destruct s.
    repeat split; auto.
Qed.

(** ** The files of a folder *)

Lemma insert_sorted_Permutation x l : insert_sorted x l ≡ₚ x :: l.
Proof.
  induction l as [|y l IH]; cbn [insert_sorted]; [reflexivity|].
  destruct (String.leb x y); [reflexivity|].
  rewrite IH. apply Permutation_swap.
Qed.

Lemma sorted_Permutation l : sorted l ≡ₚ l.
Proof.
  induction l as [|x l IH]; [reflexivity|].
  unfold sorted. cbn [foldr]. fold (sorted l).
  rewrite insert_sorted_Permutation, IH. reflexivity.
Qed.

Lemma process_files_effects `{OpenCV} dir name out camera_model verbose
    all files s :
  files ⊆ all ->
  exists evs added,
    snd (for_each files
           (process_file dir name out camera_model verbose) s) =
      mk_state (objects s) (arrays s) (images_list s ++ added)
               (trace s ++ evs) /\
    made evs = [] /\
    Forall (folder_event dir out name all) (image_events evs) /\
    (forall e,
        fst (for_each files
               (process_file dir name out camera_model verbose) s) = Raise e ->
        added <> []).
Proof.
  revert s. induction files as [|f rest IH]; intros s Hsub.
  - exists [], []. cbn [for_each ret fst snd]. rewrite !app_nil_r.
    destruct s. repeat split; [constructor|discriminate].
  - assert (Hf : f ∈ all) by (apply Hsub; left).
    assert (Hrest : rest ⊆ all) by (intros x Hx; apply Hsub; right; exact Hx).
    cbn [for_each]. unfold bind.
    destruct (process_file_effects dir name out camera_model verbose f s)
      as (evs1 & Hsnd & Hmade & Hev & Hnp).
    assert (Hfe : Forall (folder_event dir out name all) (image_events evs1)).
    { destruct (endswith f ".png") eqn:Hpng.
      - destruct Hev as [->|[->|[img ->]]]; repeat constructor;
          exists f; repeat split; eauto.
      - destruct (Hnp eq_refl) as [-> _]. constructor. }
    destruct (process_file dir name out camera_model verbose f s)
      as [[[]|e] s1]; cbn [fst snd] in Hsnd, Hnp; subst s1.
    + destruct (IH (mk_state (objects s) (arrays s)
                      (images_list s ++
                         (if endswith f ".png" then [dir +:+ "/" +:+ f]
                          else []))
                      (trace s ++ evs1)) Hrest)
        as (evs2 & added2 & Hsnd2 & Hmade2 & Hev2 & Hr2).
      exists (evs1 ++ evs2),
             ((if endswith f ".png" then [dir +:+ "/" +:+ f] else [])
                ++ added2).
      split; [rewrite Hsnd2; cbn [objects arrays images_list trace];
              rewrite !app_assoc; reflexivity|].
      split; [rewrite made_app, Hmade, Hmade2; reflexivity|].
      split; [rewrite image_events_app; apply Forall_app; auto|].
      intros e He. specialize (Hr2 e He). intros Hnil.
      apply app_eq_nil in Hnil as [_ Hnil]. contradiction.
    + exists evs1, (if endswith f ".png" then [dir +:+ "/" +:+ f] else []).
      split; [reflexivity|]. split; [exact Hmade|]. split; [exact Hfe|].
      intros e' _. destruct (endswith f ".png"); [discriminate|].
      destruct (Hnp eq_refl) as [_ Hret]. discriminate Hret.
Qed.

(** ** One folder *)

Lemma process_subfolder_effects `{NumPy} `{OpenCV} `{Host}
    calibration_parameters output_scale outputs_directory verbose
    subfolder_directory camera_index s :
  dict_get CAMERA_INDEX_DICT (basename subfolder_directory)
    = inr camera_index ->
  let r := process_subfolder calibration_parameters output_scale
             outputs_directory verbose subfolder_directory s in
  objects (snd r) = objects s /\
  exists evs,
    trace (snd r) = trace s ++ evs /\
    made evs = [] /\
    Forall (folder_event subfolder_directory outputs_directory
              (basename subfolder_directory)
              (default [] (os_listdir subfolder_directory)))
           (image_events evs) /\
    match extract (objects s) calibration_parameters camera_index
            output_scale, os_listdir subfolder_directory with
    | inl _, _ => fst r = Raise SystemExit /\ image_events evs = []
    | inr _, None => fst r = Raise IndexError /\ image_events evs = []
    | inr _, Some _ => fst r = Ret tt
    end.
Proof.
  intros Hidx r.
  assert (Er : r = process_subfolder calibration_parameters output_scale
                     outputs_directory verbose subfolder_directory s)
    by reflexivity.
  clearbody r. unfold process_subfolder in Er.
  rewrite bind_print, Hidx, bind_lift in Er.
  set (s1 := add_events s _) in Er.
  pose proof (camera_matrix_extract s1 calibration_parameters camera_index
                output_scale) as R.
  change (objects s1) with (objects s) in R.
  unfold bind at 1 in Er.
  destruct (extract (objects s) calibration_parameters camera_index
              output_scale) as [e|[[[K D] xi] Ks]].
  - destruct R as (g & R). rewrite R in Er. cbn [length Nat.eqb negb] in Er.
    rewrite bind_print in Er. unfold sys_exit, raise in Er. subst r.
    cbn [fst snd add_events objects trace].
    split; [reflexivity|]. eexists.
    split; [subst s1; cbn [add_events trace]; rewrite <- ?app_assoc;
            reflexivity|].
    split; [reflexivity|]. split; [constructor|].
    split; reflexivity.
  - rewrite R in Er. cbn [length Nat.eqb negb] in Er.
    rewrite bind_set_images_list in Er. cbn [objects arrays trace] in Er.
    unfold try_except in Er.
    destruct (os_listdir subfolder_directory) as [files|]
      eqn:Hls; cbn [from_option] in Er.
    + rewrite bind_lift in Er.
      set (s2 := mk_state _ _ _ _) in Er.
      destruct (process_files_effects subfolder_directory
                  (basename subfolder_directory) outputs_directory
                  [length (arrays s1); (length (arrays s1) + 2)%nat;
                   (length (arrays s1) + 3)%nat; (length (arrays s1) + 1)%nat]
                  verbose files (sorted files) s2)
        as (evs & added & Hsnd & Hmade & Hev & Hraise).
      { intros x Hx. rewrite <- (sorted_Permutation files). exact Hx. }
      destruct (for_each (sorted files) _ s2) as [[[]|e] s3];
        cbn [fst snd] in Hsnd, Hraise; subst s3.
      * subst r s2 s1. cbn [fst snd objects trace default add_events].
        split; [reflexivity|].
        exists ([EvPrint ("[MAIN] Undistorting the images inside: "
                            +:+ subfolder_directory +:+ " ...")] ++ evs).
        split; [rewrite app_assoc; reflexivity|].
        split; [rewrite made_app, Hmade; reflexivity|].
        split; [rewrite image_events_app; exact Hev|reflexivity].
      * rewrite bind_get_images_list in Er. subst s2.
        cbn [images_list app objects arrays trace] in Er.
        specialize (Hraise e eq_refl).
        destruct (last added) as [current|] eqn:Hlast;
          [|apply last_None in Hlast; contradiction].
        cbv beta iota in Er. rewrite print_run in Er. subst r s1.
        cbn [fst snd add_events objects trace default].
        split; [reflexivity|].
        exists ([EvPrint ("[MAIN] Undistorting the images inside: "
                            +:+ subfolder_directory +:+ " ...")] ++ evs
                ++ [EvPrint ("[WARN] Failure for undistortion process, current image: "
                               +:+ current)]).
        split; [rewrite <- !app_assoc; reflexivity|].
        split; [rewrite !made_app, Hmade; reflexivity|].
        split; [|reflexivity].
        rewrite !image_events_app, app_nil_r. exact Hev.
    + rewrite bind_lift in Er. cbn [lift raise] in Er.
      rewrite bind_get_images_list in Er.
      cbn [images_list last raise] in Er. subst r.
      cbn [fst snd objects trace].
      split; [reflexivity|]. eexists.
      split; [subst s1; cbn [add_events trace]; reflexivity|].
      split; [reflexivity|]. split; [constructor|].
      split; reflexivity.
Qed.

(** ** What [main] checks before it makes a directory *)

(** A missing calibration file, a calibration file that does not parse, an
    input directory that does not hold exactly four sub-folders, and
    sub-folders whose names are not front, left, rear and right in some
    order, each end the run with [sys.exit()] before any directory is made
    and before any image is read or written. *)
Theorem main_input_checks `{NumPy} `{OpenCV} `{Host} args s sc :
  float_of_int (scale args) = inr sc ->
  (os_path_isfile (yaml_file args) = false \/
   (exists exc, yaml_safe_load (yaml_file args) = inl exc) \/
   length (os_walk (inputs_dir args)) <> 5%nat \/
   ~ map basename (tail (map os_path_realpath (os_walk (inputs_dir args))))
       ≡ₚ expected_names) ->
  exists evs,
    main args s = (Raise SystemExit, add_events s evs) /\
    made evs = [] /\ image_events evs = [].
Proof.
  intros Hsc Hbad.
  destruct (prepare_input_checks args s sc Hsc Hbad) as (evs & E & Hm & Hi).
  exists evs. split; [|auto]. exact (main_stops_with_prepare args s _ _ E).
Qed.

Lemma main_input_checks_witness :
  exists evs,
    @main numpy_recent opencv_example host_without_calibration
      example_arguments (initial (document [camera_float]))
    = (Raise SystemExit, add_events (initial (document [camera_float])) evs) /\
    made evs = [] /\ image_events evs = [].
Proof.
  apply (@main_input_checks numpy_recent opencv_example
           host_without_calibration example_arguments
           (initial (document [camera_float])) 5%float).
  - reflexivity.
  - left. reflexivity.
Defined.

(** ** What the checks of [main] establish *)

Lemma dict_get_expected name :
  name ∈ expected_names ->
  exists idx, dict_get CAMERA_INDEX_DICT name = inr idx /\ 0 <= idx <= 3.
Proof.
  unfold expected_names. rewrite !elem_of_cons, elem_of_nil.
  intros [->|[->|[->|[->|[]]]]]; [exists 0|exists 1|exists 2|exists 3];
    (split; [reflexivity|lia]).
Qed.

Lemma prepare_indexed `{Host} args s cp sc out subs s' :
  prepare args s = (Ret (cp, sc, out, subs), s') ->
  forall d, d ∈ subs ->
    exists idx,
      dict_get CAMERA_INDEX_DICT (basename d) = inr idx /\ 0 <= idx <= 3.
Proof.
  intros E d Hd.
  destruct (prepare_returns args s cp sc out subs s' E)
    as (_ & _ & _ & _ & _ & _ & P & _).
  apply dict_get_expected. rewrite <- P.
  apply list_elem_of_In, in_map, list_elem_of_In. exact Hd.
Qed.

(** When the checks and preparations of [main] (lines 89-150) pass, the
    loop gets exactly four folders, their names are front, left, rear and
    right in some order, and so the lookup of each name in
    [CAMERA_INDEX_DICT] succeeds with a slot number from 0 to 3: the
    [KeyError] of line 156 cannot happen. *)
Theorem prepare_checked_folders `{Host} args s cp sc out subs s' :
  prepare args s = (Ret (cp, sc, out, subs), s') ->
  yaml_safe_load (yaml_file args) = inr cp /\
  length subs = 4%nat /\
  map basename subs ≡ₚ expected_names /\
  forall d, d ∈ subs ->
    exists idx,
      dict_get CAMERA_INDEX_DICT (basename d) = inr idx /\ 0 <= idx <= 3.
Proof.
  intros E.
  destruct (prepare_returns args s cp sc out subs s' E)
    as (_ & _ & Hy & _ & _ & L & P & _).
  repeat split; try assumption.
  exact (prepare_indexed args s cp sc out subs s' E).
Qed.

(** When the preparations of [main] pass, one output sub-folder for each
    key of [CAMERA_INDEX_DICT] has been made by this run under the real
    path of the output directory, in the order in which the keys are
    visited, after the output directory itself when [os.mkdir] could make
    it; nothing was read or written. *)
Theorem prepare_makes_output_folders `{Host} args s cp sc out subs s' :
  prepare args s = (Ret (cp, sc, out, subs), s') ->
  out = os_path_realpath (outputs_dir args) /\
  image_events (trace s') = image_events (trace s) /\
  made (trace s') =
    made (trace s)
    ++ (if os_mkdir (made (trace s)) (outputs_dir args)
        then [outputs_dir args] else [])
    ++ map (fun name => out +:+ "/" +:+ name) (map fst CAMERA_INDEX_DICT).
Proof.
  intros E.
  destruct (prepare_returns args s cp sc out subs s' E)
    as (_ & _ & _ & Ho & _ & _ & _ & evs & -> & Hi & Hm).
  split; [exact Ho|]. cbn [add_events trace].
  rewrite image_events_app, Hi, app_nil_r. split; [reflexivity|].
  rewrite made_app, Hm. reflexivity.
Qed.

Lemma example_prepare :
  @prepare host_example example_arguments (initial (document [camera_float]))
  = (Ret (VRef 0%nat, 5%float, "out",
          ["in/front"; "in/left"; "in/rear"; "in/right"]),
     add_events (initial (document [camera_float]))
       [EvPrint "[MAIN] ===== Start Auto-Undistortion Process =====";
        EvMkdir "out"; EvMkdir "out/front"; EvMkdir "out/left";
        EvMkdir "out/rear"; EvMkdir "out/right"]).
Proof. vm_compute. reflexivity. Qed.

Lemma prepare_checked_folders_witness :
  @yaml_safe_load host_example (yaml_file example_arguments)
    = inr (VRef 0%nat) /\
  length ["in/front"; "in/left"; "in/rear"; "in/right"] = 4%nat /\
  map basename ["in/front"; "in/left"; "in/rear"; "in/right"]
    ≡ₚ expected_names /\
  forall d, d ∈ ["in/front"; "in/left"; "in/rear"; "in/right"] ->
    exists idx,
      dict_get CAMERA_INDEX_DICT (basename d) = inr idx /\ 0 <= idx <= 3.
Proof.
  exact (@prepare_checked_folders host_example example_arguments
           (initial (document [camera_float])) _ _ _ _ _ example_prepare).
Defined.

Lemma prepare_makes_output_folders_witness :
  "out" = @os_path_realpath host_example (outputs_dir example_arguments) /\
  image_events
    (trace (add_events (initial (document [camera_float]))
       [EvPrint "[MAIN] ===== Start Auto-Undistortion Process =====";
        EvMkdir "out"; EvMkdir "out/front"; EvMkdir "out/left";
        EvMkdir "out/rear"; EvMkdir "out/right"]))
    = image_events (trace (initial (document [camera_float]))) /\
  made
    (trace (add_events (initial (document [camera_float]))
       [EvPrint "[MAIN] ===== Start Auto-Undistortion Process =====";
        EvMkdir "out"; EvMkdir "out/front"; EvMkdir "out/left";
        EvMkdir "out/rear"; EvMkdir "out/right"])) =
    made (trace (initial (document [camera_float])))
    ++ (if @os_mkdir host_example
             (made (trace (initial (document [camera_float]))))
             (outputs_dir example_arguments)
        then [outputs_dir example_arguments] else [])
    ++ map (fun name => "out" +:+ "/" +:+ name) (map fst CAMERA_INDEX_DICT).
Proof.
  exact (@prepare_makes_output_folders host_example example_arguments
           (initial (document [camera_float])) _ _ _ _ _ example_prepare).
Defined.

(** ** The loop body for one file *)

(** One pass of the loop over the files of a folder: a file whose name does
    not end in [.png] is skipped without any effect; for a [.png] file no
    Python object, no array and no directory is touched, the file is read
    at most once, from the input folder, and an image is written at most
    once, after the read, under the output sub-folder with the same file
    name. *)
Theorem process_file_reads_then_writes `{OpenCV} dir name out camera_model
    verbose file s :
  let r := process_file dir name out camera_model verbose file s in
  (endswith file ".png" = false -> r = (Ret tt, s)) /\
  objects (snd r) = objects s /\ arrays (snd r) = arrays s /\
  exists evs,
    trace (snd r) = trace s ++ evs /\ made evs = [] /\
    (image_events evs = [] \/
     image_events evs = [EvImRead (dir +:+ "/" +:+ file)] \/
     exists img,
       image_events evs =
         [EvImRead (dir +:+ "/" +:+ file);
          EvImWrite (out +:+ "/" +:+ name +:+ "/" +:+ file) img]).
Proof.
  intros r. subst r.
  destruct (process_file_effects dir name out camera_model verbose file s)
    as (evs & Hsnd & Hmade & Hev & Hnp).
  split.
  - intros Hpng. unfold process_file. rewrite Hpng. reflexivity.
  - rewrite Hsnd. cbn [objects arrays trace]. repeat split. eauto.
Qed.

(** ** The loop body for one folder *)

Lemma camera_matrix_full_list `{NumPy} s doc idx sc r :
  fst (camera_matrix doc idx sc s) = Ret r -> length r = 4%nat ->
  exists a, extract (objects s) doc idx sc = inr a.
Proof.
  intros Hr Hlen. pose proof (camera_matrix_extract s doc idx sc) as R.
  destruct (extract (objects s) doc idx sc) as [e|a]; [|eauto].
  destruct R as (g & R). rewrite R in Hr. cbn [fst] in Hr.
  injection Hr as <-. discriminate Hlen.
Qed.

(** A folder that cannot be listed: [os.listdir] raises inside the [try],
    the handler asks for [images_list[-1]] of the empty list, and
    [IndexError] leaves the loop body, so [main] ends with a traceback; no
    image has been read or written for this folder. *)
Theorem unlistable_folder_raises_index_error `{NumPy} `{OpenCV} `{Host}
    calibration_parameters output_scale outputs_directory verbose
    subfolder_directory camera_index camera_model s :
  dict_get CAMERA_INDEX_DICT (basename subfolder_directory)
    = inr camera_index ->
  fst (camera_matrix calibration_parameters camera_index output_scale s)
    = Ret camera_model ->
  length camera_model = 4%nat ->
  os_listdir subfolder_directory = None ->
  exists s',
    process_subfolder calibration_parameters output_scale outputs_directory
      verbose subfolder_directory s = (Raise IndexError, s') /\
    image_events (trace s') = image_events (trace s).
Proof.
  intros Hidx Hcm Hlen Hls.
  destruct (camera_matrix_full_list s _ _ _ _ Hcm Hlen) as (a & Ha).
  destruct (process_subfolder_effects calibration_parameters output_scale
              outputs_directory verbose subfolder_directory camera_index s
              Hidx) as (_ & evs & Ht & _ & _ & Hcase).
  rewrite Ha, Hls in Hcase. destruct Hcase as [Hf Hi].
  destruct (process_subfolder _ _ _ _ _ s) as [o s']; cbn [fst snd] in *.
  exists s'. subst o. split; [reflexivity|].
  rewrite Ht, image_events_app, Hi, app_nil_r. reflexivity.
Qed.

(** Once the calibration record of the folder is extracted and the folder
    is listed, nothing that goes wrong on an image stops the run: an
    unreadable file, an error raised by OpenCV while rectifying or while
    writing, are all absorbed, and the loop body ends normally.  It makes
    no directory, changes no Python object, reads only [.png] files listed
    in the folder and writes only files of the same names under the output
    sub-folder. *)
Theorem folder_failures_are_absorbed `{NumPy} `{OpenCV} `{Host}
    calibration_parameters output_scale outputs_directory verbose
    subfolder_directory camera_index camera_model files s :
  dict_get CAMERA_INDEX_DICT (basename subfolder_directory)
    = inr camera_index ->
  fst (camera_matrix calibration_parameters camera_index output_scale s)
    = Ret camera_model ->
  length camera_model = 4%nat ->
  os_listdir subfolder_directory = Some files ->
  exists s' evs,
    process_subfolder calibration_parameters output_scale outputs_directory
      verbose subfolder_directory s = (Ret tt, s') /\
    objects s' = objects s /\
    trace s' = trace s ++ evs /\ made evs = [] /\
    Forall (folder_event subfolder_directory outputs_directory
              (basename subfolder_directory) files) (image_events evs).
Proof.
  intros Hidx Hcm Hlen Hls.
  destruct (camera_matrix_full_list s _ _ _ _ Hcm Hlen) as (a & Ha).
  destruct (process_subfolder_effects calibration_parameters output_scale
              outputs_directory verbose subfolder_directory camera_index s
              Hidx) as (Ho & evs & Ht & Hm & Hev & Hcase).
  rewrite Ha, Hls in Hcase. rewrite Hls in Hev. cbn [default] in Hev.
  destruct (process_subfolder _ _ _ _ _ s) as [o s']; cbn [fst snd] in *.
  exists s', evs. subst o. auto.
Qed.

Lemma unlistable_folder_raises_index_error_witness :
  exists s',
    @process_subfolder numpy_recent opencv_example host_unlistable
      (VRef 0%nat) 5%float "out" false "in/front"
      (initial (document [camera_float])) = (Raise IndexError, s') /\
    image_events (trace s')
      = image_events (trace (initial (document [camera_float]))).
Proof.
  apply (@unlistable_folder_raises_index_error numpy_recent opencv_example
           host_unlistable (VRef 0%nat) 5%float "out" false "in/front" 0
           [0; 2; 3; 1]%nat (initial (document [camera_float]))).
  - reflexivity.
  - vm_compute. reflexivity.
  - reflexivity.
  - reflexivity.
Defined.

Lemma folder_failures_are_absorbed_witness :
  exists s' evs,
    @process_subfolder numpy_recent opencv_rejecting host_example
      (VRef 0%nat) 5%float "out" false "in/front"
      (initial (document [camera_float])) = (Ret tt, s') /\
    objects s' = objects (initial (document [camera_float])) /\
    trace s' = trace (initial (document [camera_float])) ++ evs /\
    made evs = [] /\
    Forall (folder_event "in/front" "out" (basename "in/front") ["a.png"])
           (image_events evs).
Proof.
  apply (@folder_failures_are_absorbed numpy_recent opencv_rejecting
           host_example (VRef 0%nat) 5%float "out" false "in/front" 0
           [0; 2; 3; 1]%nat ["a.png"] (initial (document [camera_float]))).
  - reflexivity.
  - vm_compute. reflexivity.
  - reflexivity.
  - reflexivity.
Defined.

(** ** The whole run *)

Lemma main_loop_effects `{NumPy} `{OpenCV} `{Host} cp sc out verbose
    all subs s :
  subs ⊆ all ->
  (forall d, d ∈ subs ->
     exists idx, dict_get CAMERA_INDEX_DICT (basename d) = inr idx) ->
  objects (snd (for_each subs (process_subfolder cp sc out verbose) s))
    = objects s /\
  exists evs,
    trace (snd (for_each subs (process_subfolder cp sc out verbose) s))
      = trace s ++ evs /\
    made evs = [] /\
    Forall (run_event all out) (image_events evs) /\
    ((forall d, d ∈ subs ->
        exists idx a,
          dict_get CAMERA_INDEX_DICT (basename d) = inr idx /\
          extract (objects s) cp idx sc = inr a /\
          is_Some (os_listdir d)) ->
     fst (for_each subs (process_subfolder cp sc out verbose) s) = Ret tt).
Proof.
  revert s. induction subs as [|d rest IH]; intros s Hsub Hidx.
  - cbn [for_each ret fst snd]. split; [reflexivity|]. exists [].
    rewrite app_nil_r. repeat split. constructor.
  - assert (Hd : d ∈ all) by (apply Hsub; left).
    assert (Hrest : rest ⊆ all) by (intros x Hx; apply Hsub; right; exact Hx).
    destruct (Hidx d) as (idx & Hi); [left|].
    destruct (process_subfolder_effects cp sc out verbose d idx s Hi)
      as (Ho & evs1 & Ht & Hm & Hev & Hcase).
    assert (Hre : Forall (run_event all out) (image_events evs1)).
    { destruct (os_listdir d) as [files|] eqn:Hls.
      - cbn [default] in Hev. eapply Forall_impl; [exact Hev|].
        intros e He. exists d, files. auto.
      - destruct (extract (objects s) cp idx sc);
          destruct Hcase as [_ ->]; constructor. }
    cbn [for_each]. unfold bind.
    destruct (process_subfolder cp sc out verbose d s) as [[[]|e] s1];
      cbn [fst snd] in Ho, Ht, Hcase.
    + destruct (IH s1 Hrest) as (Ho2 & evs2 & Ht2 & Hm2 & Hev2 & Hok2).
      { intros x Hx. apply Hidx. right. exact Hx. }
      split; [congruence|]. exists (evs1 ++ evs2).
      split; [rewrite Ht2, Ht, app_assoc; reflexivity|].
      split; [rewrite made_app, Hm, Hm2; reflexivity|].
      split; [rewrite image_events_app; apply Forall_app; auto|].
      intros Hall. apply Hok2. intros x Hx. rewrite Ho.
      apply Hall. right. exact Hx.
    + cbn [fst snd]. split; [exact Ho|]. exists evs1.
      repeat split; try assumption.
      intros Hall. destruct (Hall d) as (idx' & a & Hi' & Ha & files & Hls);
        [left|].
      assert (idx' = idx) by congruence. subst idx'.
      rewrite Ha, Hls in Hcase. discriminate Hcase.
Qed.

(** In a whole run of [main], whatever the command line, the files and the
    calibration document, and however the run ends: every image read is a
    [.png] file listed in one of the sub-folders of the input directory,
    and every image written is a file of the same name under the output
    directory, in the sub-folder of the same name. *)
Theorem main_image_events `{NumPy} `{OpenCV} `{Host} args s :
  exists added,
    image_events (trace (snd (main args s)))
      = image_events (trace s) ++ added /\
    Forall (run_event
              (tail (map os_path_realpath (os_walk (inputs_dir args))))
              (os_path_realpath (outputs_dir args))) added.
Proof.
  unfold main. unfold bind at 1.
  pose proof (quiet_prepare args s) as Q.
  destruct (prepare args s) as [[[[[cp sc] out] subs]|e] s1] eqn:E;
    cbn [snd] in Q.
  - pose proof (prepare_indexed args s cp sc out subs s1 E) as Hidx.
    destruct (prepare_returns args s cp sc out subs s1 E)
      as (_ & _ & _ & -> & -> & _).
    destruct (main_loop_effects cp sc
                (os_path_realpath (outputs_dir args)) (v args)
                (tail (map os_path_realpath (os_walk (inputs_dir args))))
                (tail (map os_path_realpath (os_walk (inputs_dir args))))
                s1) as (_ & evs & Ht & _ & Hev & _).
    { intros x Hx. exact Hx. }
    { intros d Hd. destruct (Hidx d Hd) as (idx & Hi & _). eauto. }
    exists (image_events evs). split; [|exact Hev].
    unfold bind.
    destruct (for_each _ _ s1) as [[[]|e] s2]; cbn [snd] in Ht.
    + rewrite print_run. cbn [snd add_events trace].
      rewrite image_events_print, Ht, image_events_app, Q. reflexivity.
    + cbn [snd]. rewrite Ht, image_events_app, Q. reflexivity.
  - exists []. cbn [snd]. rewrite app_nil_r. split; [exact Q|constructor].
Qed.

(** When the checks and preparations of [main] pass, the four camera
    slots can be extracted from the calibration document and the four
    folders can be listed, the run ends normally, with the line
    [[MAIN] Finished all tasks], whatever happens to the individual
    images. *)
Theorem main_completes `{NumPy} `{OpenCV} `{Host} args s cp sc out subs s1 :
  prepare args s = (Ret (cp, sc, out, subs), s1) ->
  (forall idx, 0 <= idx <= 3 ->
     exists camera_model,
       fst (camera_matrix cp idx sc s) = Ret camera_model /\
       length camera_model = 4%nat) ->
  (forall d, d ∈ subs -> is_Some (os_listdir d)) ->
  exists s',
    main args s = (Ret tt, s') /\
    last (trace s') =
      Some (EvPrint ("[MAIN] Finished all tasks, outputs: "
                       +:+ os_path_realpath (outputs_dir args))) /\
    objects s' = objects s.
Proof.
  intros E Hslots Hls.
  pose proof (prepare_indexed args s cp sc out subs s1 E) as Hidx.
  destruct (prepare_returns args s cp sc out subs s1 E)
    as (_ & _ & _ & Hout & _ & _ & _ & evs0 & Hs1 & _).
  destruct (main_loop_effects cp sc out (v args) subs subs s1)
    as (Ho & evs & Ht & _ & _ & Hok).
  { intros x Hx. exact Hx. }
  { intros d Hd. destruct (Hidx d Hd) as (idx & Hi & _). eauto. }
  assert (Hobj : objects s1 = objects s) by (rewrite Hs1; reflexivity).
  assert (Hfst : fst (for_each subs
                        (process_subfolder cp sc out (v args)) s1) = Ret tt).
  { apply Hok. intros d Hd. destruct (Hidx d Hd) as (idx & Hi & Hr).
    destruct (Hslots idx Hr) as (cm & Hcm & Hlen).
    destruct (camera_matrix_full_list s _ _ _ _ Hcm Hlen) as (a & Ha).
    exists idx, a. rewrite Hobj. auto. }
  unfold main. unfold bind at 1. rewrite E. unfold bind.
  destruct (for_each subs _ s1) as [o s2]; cbn [fst snd] in *. subst o.
  rewrite print_run. eexists. split; [reflexivity|].
  cbn [add_events trace objects]. rewrite last_snoc, Hout.
  split; [reflexivity|congruence].
Qed.

Lemma four_cameras_prepare :
  @prepare host_example example_arguments (initial (document four_cameras))
  = (Ret (VRef 0%nat, 5%float, "out",
          ["in/front"; "in/left"; "in/rear"; "in/right"]),
     add_events (initial (document four_cameras))
       [EvPrint "[MAIN] ===== Start Auto-Undistortion Process =====";
        EvMkdir "out"; EvMkdir "out/front"; EvMkdir "out/left";
        EvMkdir "out/rear"; EvMkdir "out/right"]).
Proof. vm_compute. reflexivity. Qed.

Lemma main_completes_witness :
  exists s',
    @main numpy_recent opencv_example host_example example_arguments
      (initial (document four_cameras)) = (Ret tt, s') /\
    last (trace s') =
      Some (EvPrint ("[MAIN] Finished all tasks, outputs: "
                       +:+ @os_path_realpath host_example
                             (outputs_dir example_arguments))) /\
    objects s' = objects (initial (document four_cameras)).
Proof.
  apply (@main_completes numpy_recent opencv_example host_example
           example_arguments (initial (document four_cameras))
           _ _ _ _ _ four_cameras_prepare).
  - intros idx Hr.
    assert (Hc : idx = 0 \/ idx = 1 \/ idx = 2 \/ idx = 3) by lia.
    exists [0; 2; 3; 1]%nat.
    destruct Hc as [-> | [-> | [-> | ->]]]; split; vm_compute; reflexivity.
  - intros d Hd. unfold os_listdir, host_example.
    destruct (String.eqb d "in/front"); eauto.
Defined.

(** ** An OpenCV error in the middle of a folder *)

Lemma for_each_skipped `{OpenCV} dir name out camera_model verbose
    skipped files s :
  Forall (fun g => endswith g ".png" = false) skipped ->
  for_each (skipped ++ files)
    (process_file dir name out camera_model verbose) s =
  for_each files (process_file dir name out camera_model verbose) s.
Proof.
  induction 1 as [|g skipped Hg _ IH]; [reflexivity|].
  cbn [app for_each]. unfold process_file at 1. rewrite Hg.
  rewrite bind_ret_l. exact IH.
Qed.

(** The [try] of [main] encloses the whole loop over the files of a folder.
    When OpenCV raises, in [initUndistortRectifyMap] or in [remap], while
    rectifying the first [.png] file of the folder in sorted order, the
    files that follow it are neither read nor written: the read of that
    file is the only image event of the folder, the handler names the image
    and the loop body ends normally, so the run goes on with the next
    folder. *)
Theorem cv_error_skips_rest_of_folder `{NumPy} `{OpenCV} `{Host}
    calibration_parameters output_scale outputs_directory verbose
    subfolder_directory camera_index s x0 fx fy cx cy ds
    files skipped f rest image :
  dict_get CAMERA_INDEX_DICT (basename subfolder_directory)
    = inr camera_index ->
  camera_data (objects s) calibration_parameters camera_index
    [x0; fx; fy; cx; cy] ds ->
  forallb numeric [x0; fx; fy; cx; cy] = true ->
  forallb numeric ds = true ->
  scalable fx fy cx cy output_scale = true ->
  length ds = 4%nat ->
  os_listdir subfolder_directory = Some files ->
  sorted files = skipped ++ f :: rest ->
  Forall (fun g => endswith g ".png" = false) skipped ->
  endswith f ".png" = true ->
  cv2_imread (subfolder_directory +:+ "/" +:+ f) = Some image ->
  (cv2_omnidir_initUndistortRectifyMap
     (K_of fx fy cx cy) (mk_ndarray [4; 1]%nat (numeric_buffer ds))
     (mk_ndarray [] (numeric_buffer [x0])) np_eye3
     (K_scaled_of fx fy cx cy output_scale) (cols image, rows image)
     CV_16SC2 RECTIFY_PERSPECTIVE = None \/
   exists maps,
     cv2_omnidir_initUndistortRectifyMap
       (K_of fx fy cx cy) (mk_ndarray [4; 1]%nat (numeric_buffer ds))
       (mk_ndarray [] (numeric_buffer [x0])) np_eye3
       (K_scaled_of fx fy cx cy output_scale) (cols image, rows image)
       CV_16SC2 RECTIFY_PERSPECTIVE = Some maps /\
     cv2_remap image (fst maps) (snd maps) INTER_LINEAR BORDER_CONSTANT
       = None) ->
  exists s',
    process_subfolder calibration_parameters output_scale outputs_directory
      verbose subfolder_directory s = (Ret tt, s') /\
    image_events (trace s') =
      image_events (trace s)
        ++ [EvImRead (subfolder_directory +:+ "/" +:+ f)] /\
    last (trace s') =
      Some (EvPrint ("[WARN] Failure for undistortion process, current image: "
                       +:+ subfolder_directory +:+ "/" +:+ f)).
Proof.
  intros Hidx Hd Hn Hds Hs Hlen Hls Hsorted Hskip Hpng Him Hcv.
  unfold process_subfolder.
  rewrite bind_print, Hidx, bind_lift.
  set (s1 := add_events s _).
  unfold bind at 1.
  rewrite (camera_matrix_well_formed s1 calibration_parameters camera_index
             output_scale x0 fx fy cx cy ds Hd Hn Hds Hs).
  cbn [length Nat.eqb negb].
  rewrite bind_set_images_list. cbn [objects arrays trace].
  unfold try_except. rewrite Hls. cbn [from_option]. rewrite bind_lift.
  rewrite Hsorted, (for_each_skipped _ _ _ _ _ _ _ _ Hskip).
  cbn [for_each].
  unfold bind at 1. unfold process_file at 1. rewrite Hpng.
  rewrite bind_get_images_list, bind_set_images_list.
  cbn [objects arrays trace images_list app].
  set (s2 := mk_state _ _ _ _).
  unfold bind at 1.
  rewrite (undistort_checked s2 (subfolder_directory +:+ "/" +:+ f) verbose
             _ _ _ _
             (K_of fx fy cx cy)
             (mk_ndarray [4; 1]%nat (numeric_buffer ds))
             (mk_ndarray [] (numeric_buffer [x0]))
             (K_scaled_of fx fy cx cy output_scale));
    try reflexivity.
  - rewrite Him.
    assert (Hraise :
      match cv2_omnidir_initUndistortRectifyMap
              (K_of fx fy cx cy) (mk_ndarray [4; 1]%nat (numeric_buffer ds))
              (mk_ndarray [] (numeric_buffer [x0])) np_eye3
              (K_scaled_of fx fy cx cy output_scale) (cols image, rows image)
              CV_16SC2 RECTIFY_PERSPECTIVE with
      | Some maps =>
          match cv2_remap image (fst maps) (snd maps)
                  INTER_LINEAR BORDER_CONSTANT with
          | Some out =>
              (Ret (Some out),
               add_events s2
                 (EvImRead (subfolder_directory +:+ "/" +:+ f) ::
                  if verbose
                  then [EvPrint (tab +:+ " Finish processing image "
                                   +:+ basename (subfolder_directory
                                                   +:+ "/" +:+ f))]
                  else []))
          | None =>
              (Raise CvError,
               add_events s2 [EvImRead (subfolder_directory +:+ "/" +:+ f)])
          end
      | None =>
          (Raise CvError,
           add_events s2 [EvImRead (subfolder_directory +:+ "/" +:+ f)])
      end =
      (Raise CvError,
       add_events s2 [EvImRead (subfolder_directory +:+ "/" +:+ f)])).
    { destruct Hcv as [-> | (maps & -> & ->)]; reflexivity. }
    rewrite Hraise.
    rewrite bind_get_images_list. subst s2.
    cbn [add_events images_list last objects arrays trace].
    rewrite print_run. eexists. split; [reflexivity|].
    cbn [add_events trace]. subst s1. cbn [add_events trace].
    split.
    + rewrite !image_events_app. cbn. rewrite !app_nil_r. reflexivity.
    + rewrite last_snoc. reflexivity.
  - subst s2. cbn [arrays]. rewrite lookup_new0. reflexivity.
  - subst s2. cbn [arrays]. rewrite lookup_new, Hlen. reflexivity.
  - subst s2. cbn [arrays]. rewrite lookup_new. reflexivity.
  - subst s2. cbn [arrays]. rewrite lookup_new. reflexivity.
Qed.

Lemma cv_error_skips_rest_of_folder_witness :
  exists s',
    @process_subfolder numpy_recent opencv_remap_error host_three_files
      (VRef 0%nat) 5%float "out" false "in/front"
      (initial (document [camera_float])) = (Ret tt, s') /\
    image_events (trace s') =
      image_events (trace (initial (document [camera_float])))
        ++ [EvImRead ("in/front" +:+ "/" +:+ "a.png")] /\
    last (trace s') =
      Some (EvPrint ("[WARN] Failure for undistortion process, current image: "
                       +:+ "in/front" +:+ "/" +:+ "a.png")).
Proof.
  apply (@cv_error_skips_rest_of_folder numpy_recent opencv_remap_error
           host_three_files (VRef 0%nat) 5%float "out" false "in/front" 0
           (initial (document [camera_float]))
           (VFloat 1.125) (VFloat 800.5) (VFloat 800.25) (VFloat 640.5)
           (VFloat 480.5) distortion4
           ["b.png"; "a.png"; "README.txt"] ["README.txt"] "a.png" ["b.png"]
           example_image);
    try reflexivity.
  - exact camera_float_data.
  - repeat constructor.
  - right. eexists. split; reflexivity.
Defined.

(** ** Fatal errors and image I/O *)

(** C7, amended.  The checks of the command line, the calibration file, the
    input folders and the output folders come before any image is read or
    written: when they end the run, no image event has happened.  A camera
    slot for which [camera_matrix] returns no record (a list whose length
    is not 4, in fact the empty list) is found when the loop reaches the
    folder of that slot: the run ends there with [sys.exit()] and no image
    of that folder is read, but the images of the folders visited before
    have been read and written by then.  A slot for which [camera_matrix]
    returns four arrays is never fatal, whatever the arrays hold: once the
    folder is listed, the loop body for that folder ends normally. *)
Theorem fatal_checks_and_image_io `{NumPy} `{OpenCV} `{Host} :
  (forall args s e s',
      prepare args s = (Raise e, s') ->
      main args s = (Raise e, s') /\
      image_events (trace s') = image_events (trace s)) /\
  (forall calibration_parameters output_scale outputs_directory verbose
          subfolder_directory camera_index camera_model s,
      dict_get CAMERA_INDEX_DICT (basename subfolder_directory)
        = inr camera_index ->
      fst (camera_matrix calibration_parameters camera_index output_scale s)
        = Ret camera_model ->
      length camera_model <> 4%nat ->
      exists s',
        process_subfolder calibration_parameters output_scale
          outputs_directory verbose subfolder_directory s
        = (Raise SystemExit, s') /\
        image_events (trace s') = image_events (trace s)) /\
  (forall calibration_parameters output_scale outputs_directory verbose
          subfolder_directory camera_index camera_model files s,
      dict_get CAMERA_INDEX_DICT (basename subfolder_directory)
        = inr camera_index ->
      fst (camera_matrix calibration_parameters camera_index output_scale s)
        = Ret camera_model ->
      length camera_model = 4%nat ->
      os_listdir subfolder_directory = Some files ->
      exists s',
        process_subfolder calibration_parameters output_scale
          outputs_directory verbose subfolder_directory s = (Ret tt, s')).
Proof.
  split; [|split].
  - intros args s e s' E. split.
    + unfold main, bind. rewrite E. reflexivity.
    + pose proof (quiet_prepare args s) as Q. rewrite E in Q. exact Q.
  - intros doc sc out verbose dir idx r s Hidx Hr Hlen.
    destruct (camera_matrix_short_list s doc idx sc r Hr Hlen) as (e & Hex).
    unfold process_subfolder.
    unfold bind at 1. cbn [print emit].
    rewrite Hidx, bind_lift.
    set (s1 := mk_state _ _ _ _).
    destruct (camera_matrix_fails s1 doc idx sc e Hex) as (g & R).
    unfold bind at 1. rewrite R. cbn [length Nat.eqb negb].
    eexists. split; [reflexivity|].
    subst s1. cbn [trace]. rewrite !image_events_print. reflexivity.
  - intros doc sc out verbose dir idx r files s Hidx Hr Hlen Hls.
    destruct (camera_matrix_full_list s _ _ _ _ Hr Hlen) as (a & Ha).
    destruct (process_subfolder_effects doc sc out verbose dir idx s Hidx)
      as (_ & evs & _ & _ & _ & Hcase).
    rewrite Ha, Hls in Hcase.
    destruct (process_subfolder _ _ _ _ _ s) as [o s']; cbn [fst] in Hcase.
    exists s'. subst o. reflexivity.
Qed.

(** C7, counterexample.  A calibration file with one camera only: the
    record of [left] cannot be extracted and the run ends with [sys.exit()],
    after the image of [front] was read and its rectified copy written. *)
Lemma main_exits_after_writing_images :
  let r := @main numpy_recent opencv_example host_example example_arguments
             (initial (document [camera_float])) in
  fst r = Raise SystemExit /\
  image_events (trace (snd r)) =
    [EvImRead "in/front/a.png"; EvImWrite "out/front/a.png" example_image].
Proof. vm_compute. split; reflexivity. Qed.

Lemma fatal_checks_and_image_io_witness :
  (exists s',
     @process_subfolder numpy_recent opencv_example host_example
       (VRef 0%nat) 5%float "out" false "in/left"
       (initial (document [camera_float]))
     = (Raise SystemExit, s') /\
     image_events (trace s') = []) /\
  (exists s',
     @process_subfolder numpy_recent opencv_example host_example
       (VRef 0%nat) 5%float "out" false "in/front"
       (initial (document [camera_three]))
     = (Ret tt, s')).
Proof.
  split.
  - apply (proj1 (proj2 (@fatal_checks_and_image_io numpy_recent
                           opencv_example host_example))
             (VRef 0%nat) 5%float "out" false "in/left" 1 []
             (initial (document [camera_float]))).
    + reflexivity.
    + vm_compute. reflexivity.
    + cbn [length]. discriminate.
  - apply (proj2 (proj2 (@fatal_checks_and_image_io numpy_recent
                           opencv_example host_example))
             (VRef 0%nat) 5%float "out" false "in/front" 0 [0; 2; 3; 1]%nat
             ["a.png"] (initial (document [camera_three]))).
    + reflexivity.
    + vm_compute. reflexivity.
    + reflexivity.
    + reflexivity.
Defined.
